(** * The layer store of the collage editor (src/app/page.tsx) and the
      generation relay (src/app/api/generate-image/route.ts)

    A shallow embedding of the zustand store [useStore], of the [POST]
    route handler and of the event handlers of the component that call the
    store, followed by their properties.

    Conventions of the embedding.
    - A JavaScript [number] that the code only copies or compares ([id],
      [zIndex], the geometry, array indices) is a [Z].  The store does no
      arithmetic on the geometry, and [zIndex] is only ever computed from an
      array length, so no rounding is involved.
    - [number | null] is [option Z], with [None] for [null].
    - An array is a [list]; [Array.prototype.splice] is written out with the
      clamping of its arguments, so that indices out of range behave as in
      the source.
    - zustand's [set] merges the partial state it is given into the state. *)

From stdpp Require Import base option list list_numbers strings pretty.
From Stdlib Require Import ZArith Lia.

Local Open Scope Z_scope.

(** ** Data model *)

(** [type: 'image' | 'text'] *)
Inductive LayerType := image | text.

#[global] Instance LayerType_eq_dec : EqDecision LayerType.
Proof. solve_decision. Defined.

(** [interface Layer] *)
Module Layer.
Record t := mk {
  id : Z;
  type : LayerType;
  src : string;
  name : string;
  width : Z;
  height : Z;
  x : Z;
  y : Z;
  zIndex : Z;
  content : option string
}.

(** [{ ...layer, zIndex: z }] *)
Definition with_zIndex (layer : t) (z : Z) : t :=
  mk (id layer) (type layer) (src layer) (name layer) (width layer)
     (height layer) (x layer) (y layer) z (content layer).
End Layer.

#[global] Instance Layer_eq_dec : EqDecision Layer.t.
Proof. solve_decision. Defined.

(** [Partial<Layer>]: the fields a patch names, with their values.  [None] is
    a field the patch does not name.  [content] is optional in [Layer], so a
    patch may name it and give [undefined]: [Some None].  A patch that gives
    [undefined] to one of the other fields would make the result something
    else than a [Layer]; such patches are not part of the model. *)
Module Partial.
Record t := mk {
  id : option Z;
  type : option LayerType;
  src : option string;
  name : option string;
  width : option Z;
  height : option Z;
  x : option Z;
  y : option Z;
  zIndex : option Z;
  content : option (option string)
}.
End Partial.

(** [{ ...layer, ...updates }]: a field named by [updates] takes its value,
    every other field keeps the one of [layer]. *)
Definition spread (layer : Layer.t) (updates : Partial.t) : Layer.t :=
  Layer.mk
    (default (Layer.id layer) (Partial.id updates))
    (default (Layer.type layer) (Partial.type updates))
    (default (Layer.src layer) (Partial.src updates))
    (default (Layer.name layer) (Partial.name updates))
    (default (Layer.width layer) (Partial.width updates))
    (default (Layer.height layer) (Partial.height updates))
    (default (Layer.x layer) (Partial.x updates))
    (default (Layer.y layer) (Partial.y updates))
    (default (Layer.zIndex layer) (Partial.zIndex updates))
    (default (Layer.content layer) (Partial.content updates)).

(** An element of [state.layers] at run time.  [reorderLayers] spreads
    whatever the array holds, and with a start index out of range that is
    [undefined]: [{ ...undefined, zIndex: z }] is the object [{ zIndex: z }],
    which has no other field.  [Bare z] is that object; [Full] is a layer. *)
Inductive Entry :=
  | Full (layer : Layer.t)
  | Bare (z : Z).

#[global] Instance Entry_eq_dec : EqDecision Entry.
Proof. solve_decision. Defined.

(** [layer.id], [undefined] ([None]) on a bare object. *)
Definition entry_id (e : Entry) : option Z :=
  match e with
  | Full layer => Some (Layer.id layer)
  | Bare _ => None
  end.

(** [layer.zIndex] *)
Definition entry_zIndex (e : Entry) : Z :=
  match e with
  | Full layer => Layer.zIndex layer
  | Bare z => z
  end.

(** [layer.id === id] for a number [id]. *)
Definition id_is (id : Z) (e : Entry) : bool :=
  match e with
  | Full layer => Layer.id layer =? id
  | Bare _ => false
  end.

(** [layer.id === state.selectedLayerId]; [null] equals no id, and neither
    does the [undefined] id of a bare object. *)
Definition id_is_selection (selectedLayerId : option Z) (e : Entry) : bool :=
  match selectedLayerId with
  | Some id => id_is id e
  | None => false
  end.

(** [{ ...layer, zIndex: z }] for an array element that may be [undefined]
    ([None]). *)
Definition respread (layer : option Entry) (z : Z) : Entry :=
  match layer with
  | Some (Full l) => Full (Layer.with_zIndex l z)
  | Some (Bare _) => Bare z
  | None => Bare z
  end.

(** The data fields of [interface EditorState]. *)
Record EditorState := mkState {
  layers : list Entry;
  selectedLayerId : option Z
}.

(** The partial state an updater hands to zustand's [set]. *)
Record PartialState := mkPartial {
  set_layers : option (list Entry);
  set_selectedLayerId : option (option Z)
}.

(** zustand's [set(updater)]: the fields the updater returns replace those of
    the state, the others are kept. *)
Definition set (updater : EditorState → PartialState) (state : EditorState)
  : EditorState :=
  let partial := updater state in
  mkState (default (layers state) (set_layers partial))
          (default (selectedLayerId state) (set_selectedLayerId partial)).

(** ** [Array.prototype.splice] *)

(** The start index as [splice] reads it: counted from the end when
    negative, clamped to [0 .. len]. *)
Definition relative_start (len start : Z) : nat :=
  Z.to_nat (if start <? 0 then Z.max (len + start) 0 else Z.min start len).

(** [arr.splice(start, deleteCount, ...items)]: the removed elements and the
    array afterwards. *)
Definition splice {A} (arr : list A) (start deleteCount : Z) (items : list A)
  : list A * list A :=
  let len := Z.of_nat (length arr) in
  let from := relative_start len start in
  let count := Z.to_nat (Z.min (Z.max deleteCount 0) (len - Z.of_nat from)) in
  (take count (drop from arr),
   take from arr ++ items ++ drop (from + count) arr).

(** ** The store *)

(** [layers: [], selectedLayerId: null] *)
Definition initial : EditorState := mkState [] None.

Definition addLayer (layer : Layer.t) : EditorState → EditorState :=
  set (λ state,
    mkPartial
      (Some (Full (Layer.with_zIndex layer (Z.of_nat (length (layers state))))
             :: layers state))
      None).

(** [layer.id === id ? { ...layer, ...updates } : layer] *)
Definition update_entry (id : Z) (updates : Partial.t) (e : Entry) : Entry :=
  match e with
  | Full layer => if Layer.id layer =? id then Full (spread layer updates) else e
  | Bare _ => e
  end.

Definition updateLayer (id : Z) (updates : Partial.t)
  : EditorState → EditorState :=
  set (λ state,
    mkPartial (Some (update_entry id updates <$> layers state)) None).

Definition selectLayer (id : option Z) : EditorState → EditorState :=
  set (λ _, mkPartial None (Some id)).

(** [newLayers.map((layer, index) =>
       ({ ...layer, zIndex: newLayers.length - 1 - index }))] *)
Definition renumber (newLayers : list (option Entry)) : list Entry :=
  imap (λ index layer,
          respread layer (Z.of_nat (length newLayers) - 1 - Z.of_nat index))
       newLayers.

Definition reorderLayers (startIndex endIndex : Z)
  : EditorState → EditorState :=
  set (λ state,
    let newLayers := Some <$> layers state in
    let removed := splice newLayers startIndex 1 [] in
    (* const [reorderedItem] = ...: undefined when nothing was removed *)
    let reorderedItem := mjoin (head (removed.1)) in
    let newLayers := (splice (removed.2) endIndex 0 [reorderedItem]).2 in
    mkPartial (Some (renumber newLayers)) None).

Definition deleteSelectedLayer : EditorState → EditorState :=
  set (λ state,
    mkPartial
      (Some (filter (λ layer, ¬ id_is_selection (selectedLayerId state) layer)
                    (layers state)))
      (Some None)).

(** ** Sequences of store operations *)

Inductive Op :=
  | AddLayer (layer : Layer.t)
  | UpdateLayer (id : Z) (updates : Partial.t)
  | SelectLayer (id : option Z)
  | ReorderLayers (startIndex endIndex : Z)
  | DeleteSelectedLayer.

Definition step (state : EditorState) (op : Op) : EditorState :=
  match op with
  | AddLayer layer => addLayer layer state
  | UpdateLayer id updates => updateLayer id updates state
  | SelectLayer id => selectLayer id state
  | ReorderLayers startIndex endIndex => reorderLayers startIndex endIndex state
  | DeleteSelectedLayer => deleteSelectedLayer state
  end.

(** Runs [ops] from [state] as long as every call meets the condition [ok]
    in the state it is made in; [None] when one does not. *)
Fixpoint run_if (ok : EditorState → Op → bool) (state : EditorState)
    (ops : list Op) : option EditorState :=
  match ops with
  | [] => Some state
  | op :: ops => if ok state op then run_if ok (step state op) ops else None
  end.

(** The caller's guarantee for [addLayer]: the id of the new layer is the id
    of no layer of the collection. *)
Definition fresh_id (state : EditorState) (op : Op) : bool :=
  match op with
  | AddLayer layer => forallb (λ e, negb (id_is (Layer.id layer) e)) (layers state)
  | _ => true
  end.

(** ** The generation relay (route.ts) *)

Module Relay.

#[local] Unset Elimination Schemes.

(** A JSON value.  Numbers are only passed along, never computed with. *)
Inductive Json :=
  | JNull
  | JBool (b : bool)
  | JNumber (n : Z)
  | JString (s : string)
  | JArray (items : list Json)
  | JObject (fields : list (string * Json)).

#[local] Set Elimination Schemes.

(** The value of a key among the fields of a parsed object; a key written
    twice has its last value.  [None] is [undefined]. *)
Fixpoint field (key : string) (fields : list (string * Json)) : option Json :=
  match fields with
  | [] => None
  | (k, v) :: rest =>
      match field key rest with
      | Some later => Some later
      | None => if String.eqb k key then Some v else None
      end
  end.

(** [value.key] for a value that came out of [JSON.parse]: only an object
    has the properties [prompt] and [size]. *)
Definition get (key : string) (value : Json) : option Json :=
  match value with
  | JObject fields => field key fields
  | _ => None
  end.

(** [Request]: what [request.json()] resolves to, [None] when it rejects
    because the body is not JSON. *)
Record Request := mkRequest { body : option Json }.

(** [process.env]: the variable the handler reads, [None] when it is not
    set. *)
Record Env := mkEnv { FAL_AI_API_KEY : option string }.

(** An outbound [fetch(url, { method, headers, body })].  [payload] is the
    object given to [JSON.stringify]. *)
Record FetchCall := mkCall {
  url : string;
  method : string;
  headers : list (string * string);
  payload : list (string * Json)
}.

(** The response of a [fetch]: what [response.json()] resolves to, [None]
    when it rejects. *)
Record FetchResponse := mkFetchResponse { json : option Json }.

(** The provider and the network: the response to a call, [None] when
    [fetch] rejects. *)
Definition Provider : Type := FetchCall → option FetchResponse.

(** [NextResponse.json(body, { status })] *)
Record Response := mkResponse { status : Z; response_body : Json }.

(** An [async] computation: the outbound calls it made, in order, and its
    value, [None] when it threw or awaited a promise that rejected. *)
Definition Async (A : Type) : Type := list FetchCall * option A.

Definition ret {A} (a : A) : Async A := ([], Some a).

Definition throw {A} : Async A := ([], None).

Definition bind {A B} (m : Async A) (k : A → Async B) : Async B :=
  match m.2 with
  | Some a => (m.1 ++ (k a).1, (k a).2)
  | None => (m.1, None)
  end.

Notation "x <- m ;; k" := (bind m (λ x, k))
  (at level 100, m at next level, right associativity).

(** [await request.json()] *)
Definition request_json (request : Request) : Async Json :=
  ([], body request).

(** [await fetch(...)] *)
Definition fetch (provider : Provider) (call : FetchCall) : Async FetchResponse :=
  ([call], provider call).

(** [await response.json()] *)
Definition response_json (response : FetchResponse) : Async Json :=
  ([], json response).

(** [const { prompt, size } = value]: a [TypeError] on [null]. *)
Definition destructure (value : Json) : Async (option Json * option Json) :=
  match value with
  | JNull => throw
  | _ => ret (get "prompt" value, get "size" value)
  end.

(** The truth value of [apiKey]: [undefined] and the empty string are
    falsy. *)
Definition truthy (apiKey : option string) : bool :=
  match apiKey with
  | Some (String _ _) => true
  | Some EmptyString => false
  | None => false
  end.

(** An object literal as [JSON.stringify] sees it: a property whose value is
    [undefined] is left out. *)
Definition object (props : list (string * option Json)) : list (string * Json) :=
  omap (λ p, pair (p.1) <$> p.2) props.

Definition NextResponse_json (body : Json) (status : Z) : Response :=
  mkResponse status body.

Definition key_not_found : Json :=
  JObject [("error", JString "API key not found")].

Definition POST (env : Env) (provider : Provider) (request : Request)
  : Async Response :=
  value <- request_json request ;;
  fields <- destructure value ;;
  let prompt := fields.1 in
  let size := fields.2 in
  let apiKey := FAL_AI_API_KEY env in
  if negb (truthy apiKey) then
    ret (NextResponse_json key_not_found 500)
  else
    response <- fetch provider
      (mkCall "https://fal.run/fal-ai/fast-lightning-sdxl" "POST"
         [("Content-Type", "application/json");
          ("Authorization", "Key " +:+ default EmptyString apiKey)]
         (object [("prompt", prompt); ("image_size", size)])) ;;
    data <- response_json response ;;
    ret (NextResponse_json data 200).

(** The outbound calls of a run and the response it ends with. *)
Definition calls {A} (run : Async A) : list FetchCall := run.1.

Definition result {A} (run : Async A) : option A := run.2.

(** Test data. *)
Definition generate_request : Request :=
  mkRequest (Some (JObject [("prompt", JString "a cat"); ("size", JString "square_hd")])).

Definition provider_ok : Provider :=
  λ _, Some (mkFetchResponse
               (Some (JObject [("images", JArray [JObject [("url", JString "https://fal.media/a.png")]])]))).

End Relay.

(** ** Test data: the layers of the scenario of the specification *)

Definition sample (id : Z) : Layer.t :=
  Layer.mk id image "https://fal.media/files/a.png" "Generated Image" 200 200 0 0 0 None.

(** ** Vocabulary of the statements *)

(** [id] is the id of a layer of the collection. *)
Definition present (id : Z) (state : EditorState) : Prop :=
  Some id ∈ entry_id <$> layers state.

(** The entry is the one the selection names. *)
Definition selected (state : EditorState) (e : Entry) : Prop :=
  ∃ id, selectedLayerId state = Some id ∧ entry_id e = Some id.

(** The rule of a merge for one field: a field the patch names takes the
    value the patch gives, a field it does not name keeps its value. *)
Definition field_rule {A} (named : option A) (old new : A) : Prop :=
  match named with
  | Some v => new = v
  | None => new = old
  end.

(** [new] is [old] with the fields named by [updates] replaced, and no other
    field changed. *)
Definition patched (updates : Partial.t) (old new : Layer.t) : Prop :=
  field_rule (Partial.id updates) (Layer.id old) (Layer.id new)
  ∧ field_rule (Partial.type updates) (Layer.type old) (Layer.type new)
  ∧ field_rule (Partial.src updates) (Layer.src old) (Layer.src new)
  ∧ field_rule (Partial.name updates) (Layer.name old) (Layer.name new)
  ∧ field_rule (Partial.width updates) (Layer.width old) (Layer.width new)
  ∧ field_rule (Partial.height updates) (Layer.height old) (Layer.height new)
  ∧ field_rule (Partial.x updates) (Layer.x old) (Layer.x new)
  ∧ field_rule (Partial.y updates) (Layer.y old) (Layer.y new)
  ∧ field_rule (Partial.zIndex updates) (Layer.zIndex old) (Layer.zIndex new)
  ∧ field_rule (Partial.content updates) (Layer.content old) (Layer.content new).

(** The two layers agree on every field except, possibly, [zIndex]. *)
Definition same_but_zIndex (a b : Layer.t) : Prop :=
  Layer.id a = Layer.id b
  ∧ Layer.type a = Layer.type b
  ∧ Layer.src a = Layer.src b
  ∧ Layer.name a = Layer.name b
  ∧ Layer.width a = Layer.width b
  ∧ Layer.height a = Layer.height b
  ∧ Layer.x a = Layer.x b
  ∧ Layer.y a = Layer.y b
  ∧ Layer.content a = Layer.content b.

(** An entry with its [zIndex] forgotten: what is left are the fields a
    reorder has no business changing. *)
Definition forget_zIndex (e : Entry) : Entry :=
  match e with
  | Full layer => Full (Layer.with_zIndex layer 0)
  | Bare _ => Bare 0
  end.

(** The [zIndex] values of the collection, in list order. *)
Definition zIndexes (state : EditorState) : list Z :=
  entry_zIndex <$> layers state.

(** Following the words of the specification, for comparison with the code:
    the item at position [from] is removed, and reinserted so that it stands
    at position [to] of the resulting list. *)
Definition move {A} (from to : nat) (l : list A) : list A :=
  match l !! from with
  | Some item => take to (delete from l) ++ item :: drop to (delete from l)
  | None => l
  end.

(** The array [reorderLayers] hands to [map]: the copy of the collection
    after its two [splice] calls. *)
Definition spliced (startIndex endIndex : Z) (l : list Entry)
  : list (option Entry) :=
  let removed := splice (Some <$> l) startIndex 1 [] in
  (splice (removed.2) endIndex 0 [mjoin (head (removed.1))]).2.

(** The ranks [n - 1, ..., 1, 0]. *)
Definition ranks (n : nat) : list Z :=
  (λ k : nat, Z.of_nat n - 1 - Z.of_nat k) <$> seq 0 n.

(** ** Conditions on calls, for the invariants *)

(** The call keeps the ranking of the collection: it is not
    [deleteSelectedLayer], and if it is [updateLayer] its patch does not
    name [zIndex]. *)
Definition keeps_ranking (state : EditorState) (op : Op) : bool :=
  match op with
  | UpdateLayer _ updates =>
      match Partial.zIndex updates with None => true | Some _ => false end
  | DeleteSelectedLayer => false
  | _ => true
  end.

(** The call keeps the selection on a layer: if it is [selectLayer], it is
    given [null] or the id of a layer of the collection, and if it is
    [updateLayer] its patch does not name [id]. *)
Definition keeps_selection (state : EditorState) (op : Op) : bool :=
  match op with
  | SelectLayer (Some id) => existsb (id_is id) (layers state)
  | UpdateLayer _ updates =>
      match Partial.id updates with None => true | Some _ => false end
  | _ => true
  end.

(** The collection is ranked when the entry at position [k] of [n] has
    [zIndex = n - 1 - k]. *)
Definition ranked (state : EditorState) : Prop :=
  zIndexes state = ranks (length (layers state)).

(** The selection is [null] or the id of a layer of the collection. *)
Definition selection_valid (state : EditorState) : Prop :=
  match selectedLayerId state with
  | Some id => present id state
  | None => True
  end.

(** The patches of the counterexamples: [{ zIndex: z }] and [{ id: id }]. *)
Definition patch_zIndex (z : Z) : Partial.t :=
  Partial.mk None None None None None None None None (Some z) None.

Definition patch_id (id : Z) : Partial.t :=
  Partial.mk (Some id) None None None None None None None None None.

(** [{ x: x }], the patch of the update-isolation property. *)
Definition patch_x (x : Z) : Partial.t :=
  Partial.mk None None None None None None (Some x) None None None.

(** Test data: the collection after two and after three [addLayer] calls. *)
Definition two_layers : EditorState :=
  addLayer (sample 2) (addLayer (sample 1) initial).

Definition three_layers : EditorState := addLayer (sample 3) two_layers.

(** All the calls of a sequence, one after the other. *)
Definition run (ops : list Op) : EditorState := foldl step initial ops.

(** Test data: sequences of calls. *)
Definition calls_delete_then_add : list Op :=
  [AddLayer (sample 1); AddLayer (sample 2); SelectLayer (Some 1);
   DeleteSelectedLayer; AddLayer (sample 3)].

Definition calls_patch_zIndex : list Op :=
  [AddLayer (sample 1); AddLayer (sample 2); UpdateLayer 1 (patch_zIndex 1)].

Definition calls_select_unknown : list Op := [SelectLayer (Some 42)].

Definition calls_patch_id : list Op :=
  [AddLayer (sample 1); SelectLayer (Some 1); UpdateLayer 1 (patch_id 2)].

Definition calls_without_delete : list Op :=
  [AddLayer (sample 1); AddLayer (sample 2); ReorderLayers 1 0;
   UpdateLayer 1 (patch_x 10); ReorderLayers 5 0; AddLayer (sample 3)].

Definition calls_with_checked_select : list Op :=
  [AddLayer (sample 1); AddLayer (sample 2); SelectLayer (Some 1);
   UpdateLayer 1 (patch_x 10); ReorderLayers 1 0; DeleteSelectedLayer;
   SelectLayer (Some 2)].

(** The ids of the layers of the collection, in list order. *)
Definition ids (state : EditorState) : list Z := omap entry_id (layers state).

(** The call keeps the ids apart: if it is [addLayer], the id of the new
    layer is fresh, and if it is [updateLayer] its patch does not name
    [id]. *)
Definition keeps_ids (state : EditorState) (op : Op) : bool :=
  fresh_id state op
  && match op with
     | UpdateLayer _ updates =>
         match Partial.id updates with None => true | Some _ => false end
     | _ => true
     end.

Definition calls_with_fresh_ids : list Op :=
  [AddLayer (sample 1); AddLayer (sample 2); ReorderLayers 7 0;
   SelectLayer (Some 2); UpdateLayer 2 (patch_zIndex 5); DeleteSelectedLayer;
   AddLayer (sample 3)].

(** ** The handlers of the component (page.tsx) *)

(** [{ x: d.x, y: d.y }] *)
Definition patch_position (x y : Z) : Partial.t :=
  Partial.mk None None None None None None (Some x) (Some y) None None.

(** [{ width: ref.offsetWidth, height: ref.offsetHeight,
       x: position.x, y: position.y }] *)
Definition patch_geometry (width height x y : Z) : Partial.t :=
  Partial.mk None None None None (Some width) (Some height) (Some x) (Some y)
             None None.

(** [{ ...p, ...q }] for two patches: what [q] names wins. *)
Definition merge (p q : Partial.t) : Partial.t :=
  Partial.mk
    (from_option Some (Partial.id p) (Partial.id q))
    (from_option Some (Partial.type p) (Partial.type q))
    (from_option Some (Partial.src p) (Partial.src q))
    (from_option Some (Partial.name p) (Partial.name q))
    (from_option Some (Partial.width p) (Partial.width q))
    (from_option Some (Partial.height p) (Partial.height q))
    (from_option Some (Partial.x p) (Partial.x q))
    (from_option Some (Partial.y p) (Partial.y q))
    (from_option Some (Partial.zIndex p) (Partial.zIndex q))
    (from_option Some (Partial.content p) (Partial.content q)).

(** [handleSelect] of [ResizableImage] and the [onClick] of [LayerItem]:
    [selectLayer(layer.id)]. *)
Definition handleSelect (layer : Layer.t) : EditorState → EditorState :=
  selectLayer (Some (Layer.id layer)).





(** [layer.id === selectedLayerId], the test for the highlight of
    [LayerItem] and for [isSelected] of [ResizableImage]. *)
Definition isSelected (state : EditorState) (e : Entry) : bool :=
  id_is_selection (selectedLayerId state) e.

(** *** handleSubmit *)

(** The body [handleSubmit] posts: [JSON.stringify({ prompt, size })], as
    the route handler reads it back. *)
Definition submit_request (prompt size : string) : Relay.Request :=
  Relay.mkRequest
    (Some (Relay.JObject [("prompt", Relay.JString prompt);
                          ("size", Relay.JString size)])).

(** What [await response.json()] gives [handleSubmit] when the route handler
    runs with [env] and [provider]: the body of the handler's response,
    whatever its status, since [handleSubmit] does not look at the status.
    When the handler throws there is no such body, and [response.json()]
    rejects ([None]). *)
Definition relay_answer (env : Relay.Env) (provider : Relay.Provider)
    (prompt size : string) : option Relay.Json :=
  Relay.response_body
    <$> Relay.result (Relay.POST env provider (submit_request prompt size)).

(** A property access [value.key] or [value[0]] on a value that may be
    [undefined] ([None]): a [TypeError] (outer [None]) on [undefined] and on
    [null], else the property, [undefined] when the value has none. *)
Definition member (read : Relay.Json → option Relay.Json)
    (value : option Relay.Json) : option (option Relay.Json) :=
  match value with
  | None => None
  | Some Relay.JNull => None
  | Some v => Some (read v)
  end.

(** [value[0]]: the first item of an array, the first character of a
    string, the property ["0"] of an object. *)
Definition item0 (value : Relay.Json) : option Relay.Json :=
  match value with
  | Relay.JArray items => head items
  | Relay.JString (String c _) => Some (Relay.JString (String c EmptyString))
  | Relay.JObject fields => Relay.field "0" fields
  | _ => None
  end.

(** [data.images[0].url] *)
Definition images_0_url (data : Relay.Json) : option (option Relay.Json) :=
  images ← member (Relay.get "images") (Some data);
  first ← member item0 images;
  member (Relay.get "url") first.

(** The [newLayer] of [handleSubmit].  [captured] is [layers.length] of the
    render the handler belongs to, from before the request; [now] is
    [Date.now()]. *)
Definition newLayer (captured : nat) (now : Z) (url : string) : Layer.t :=
  Layer.mk now image url ("Generated Image " +:+ pretty (captured + 1)%nat)
           200 200 0 0 (Z.of_nat captured) None.

(** How a [handleSubmit] ends, as far as the store goes. *)
Inductive Settled :=
  | Added (state : EditorState)   (* [addLayer(newLayer)] ran *)
  | Logged (state : EditorState)  (* the [catch] branch: [console.error] *)
  | Untyped.                      (* the url is not a string: no [Layer] *)

(** [handleSubmit] from [await response.json()] on.  [data] is what the
    [await] gives, [None] when [fetch] or [response.json()] rejects. *)
Definition handleSubmit_settle (captured : nat) (now : Z)
    (data : option Relay.Json) (state : EditorState) : Settled :=
  match data with
  | None => Logged state
  | Some data =>
      match images_0_url data with
      | None => Logged state
      | Some (Some (Relay.JString url)) =>
          Added (addLayer (newLayer captured now url) state)
      | Some _ => Untyped
      end
  end.

(** *** Events *)








(** Test data: a provider answer with one image, and a session. *)
Definition answer (url : string) : Relay.Json :=
  Relay.JObject
    [("images", Relay.JArray [Relay.JObject [("url", Relay.JString url)]])].





(** A provider that answers every call with one image. *)
Definition provider_image (url : string) : Relay.Provider :=
  λ _, Some (Relay.mkFetchResponse (Some (answer url))).

(** Two layers, the back one selected. *)
Definition two_layers_back_selected : EditorState :=
  selectLayer (Some 1) two_layers.

(** ** Basic facts *)

Lemma id_is_true id e : id_is id e = true ↔ entry_id e = Some id.
Proof.
  destruct e as [layer|z]; simpl.
  - rewrite Z.eqb_eq. split; [intros ->; reflexivity | congruence].
  - split; discriminate.
Qed.

Lemma id_is_false id e : id_is id e = false ↔ entry_id e ≠ Some id.
Proof.
  rewrite <- id_is_true. destruct (id_is id e); split; congruence.
Qed.

Lemma id_is_selection_spec state e :
  Is_true (id_is_selection (selectedLayerId state) e) ↔ selected state e.
Proof.
  unfold selected, id_is_selection.
  destruct (selectedLayerId state) as [id|].
  - rewrite Is_true_true, id_is_true. split.
    + intros H. exists id. auto.
    + intros (id' & [= <-] & H). exact H.
  - split; [intros [] | intros (id & [=] & _)].
Qed.

Lemma not_present_lookup id state :
  ¬ present id state ↔ ∀ e, e ∈ layers state → entry_id e ≠ Some id.
Proof.
  unfold present. rewrite list_elem_of_fmap. split.
  - intros H e He Hid. apply H. exists e. auto.
  - intros H (e & Hid & He). exact (H e He (eq_sym Hid)).
Qed.

Lemma update_entry_other id updates e :
  entry_id e ≠ Some id → update_entry id updates e = e.
Proof.
  intros H. destruct e as [layer|z]; simpl; [|reflexivity].
  destruct (Z.eqb_spec (Layer.id layer) id) as [Heq|]; [|reflexivity].
  destruct H. simpl. congruence.
Qed.

Lemma update_entry_match id updates layer :
  Layer.id layer = id →
  update_entry id updates (Full layer) = Full (spread layer updates).
Proof. intros <-. simpl. rewrite Z.eqb_refl. reflexivity. Qed.

Lemma update_entries_other id updates (l : list Entry) :
  (∀ e, e ∈ l → entry_id e ≠ Some id) → update_entry id updates <$> l = l.
Proof.
  induction l as [|e l IH]; intros H; csimpl; [reflexivity|].
  rewrite update_entry_other by (apply H; left).
  rewrite IH; [reflexivity|]. intros e' He'. apply H. right. exact He'.
Qed.

Lemma spread_patched layer updates : patched updates layer (spread layer updates).
Proof.
  destruct updates as [i t s n w h px py z c].
  unfold patched, field_rule, spread; simpl.
  destruct i, t, s, n, w, h, px, py, z, c; simpl; repeat split.
Qed.

Lemma filter_unselected_all state (l : list Entry) :
  (∀ e, e ∈ l → ¬ selected state e) →
  filter (λ e, ¬ id_is_selection (selectedLayerId state) e) l = l.
Proof.
  induction l as [|e l IH]; intros H; [reflexivity|].
  rewrite filter_cons_True.
  - rewrite IH; [reflexivity|]. intros e' He'. apply H. right. exact He'.
  - rewrite id_is_selection_spec. apply H. left.
Qed.

(** ** addLayer *)

(** C3. [addLayer L] puts a copy of [L] at position 0 of the collection,
    with [zIndex] equal to the size of the collection before the call and
    every other field as in [L]; the layers already there follow, unchanged
    ([zIndex] included); the collection has one layer more, and the
    selection is the same.  This holds whether or not the id of [L] is
    fresh. *)
Theorem addLayer_front (state : EditorState) (L : Layer.t) :
  ∃ L',
    layers (addLayer L state) = Full L' :: layers state
    ∧ Layer.zIndex L' = Z.of_nat (length (layers state))
    ∧ same_but_zIndex L L'
    ∧ length (layers (addLayer L state)) = S (length (layers state))
    ∧ selectedLayerId (addLayer L state) = selectedLayerId state.
Proof.
  exists (Layer.with_zIndex L (Z.of_nat (length (layers state)))).
  unfold addLayer, set, same_but_zIndex; simpl.
  repeat split; reflexivity.
Qed.

(** ** updateLayer *)

Lemma updateLayer_selection state id updates :
  selectedLayerId (updateLayer id updates state) = selectedLayerId state.
Proof. reflexivity. Qed.

Lemma updateLayer_lookup state id updates k :
  layers (updateLayer id updates state) !! k
  = update_entry id updates <$> layers state !! k.
Proof. unfold updateLayer, set; simpl. apply list_lookup_fmap. Qed.

(** When exactly one layer has the id, the list is rebuilt around it. *)
Lemma updateLayer_unique state id updates l1 L l2 :
  layers state = l1 ++ Full L :: l2 →
  Layer.id L = id →
  Some id ∉ entry_id <$> (l1 ++ l2) →
  layers (updateLayer id updates state) = l1 ++ Full (spread L updates) :: l2.
Proof.
  intros Hl Hid Hno. unfold updateLayer, set; simpl.
  rewrite Hl, fmap_app, fmap_cons, update_entry_match by exact Hid.
  assert (Hother : ∀ e, e ∈ l1 ++ l2 → entry_id e ≠ Some id).
  { intros e He Heq. apply Hno. apply list_elem_of_fmap. exists e. auto. }
  rewrite !update_entries_other; [reflexivity| |];
    intros e He; apply Hother; apply elem_of_app; auto.
Qed.

(** C5. [updateLayer id updates] keeps the selection and the length of the
    list; at every position, an entry whose id is not [id] stays as it is,
    and a layer whose id is [id] is replaced, in place, by a layer that has
    the patch's value in every field the patch names and the old value in
    every other field.  When the layer with that id is the only one, the
    result is the same list with that one layer patched. *)
Theorem updateLayer_isolated (state : EditorState) (id : Z) (updates : Partial.t) :
  selectedLayerId (updateLayer id updates state) = selectedLayerId state
  ∧ length (layers (updateLayer id updates state)) = length (layers state)
  ∧ (∀ k e, layers state !! k = Some e → entry_id e ≠ Some id →
       layers (updateLayer id updates state) !! k = Some e)
  ∧ (∀ k old, layers state !! k = Some (Full old) → Layer.id old = id →
       ∃ new, layers (updateLayer id updates state) !! k = Some (Full new)
              ∧ patched updates old new)
  ∧ (∀ l1 L l2, layers state = l1 ++ Full L :: l2 → Layer.id L = id →
       Some id ∉ entry_id <$> (l1 ++ l2) →
       ∃ L', layers (updateLayer id updates state) = l1 ++ Full L' :: l2
             ∧ patched updates L L').
Proof.
  split; [reflexivity|]. split.
  { unfold updateLayer, set; simpl. apply length_fmap. }
  split; [|split].
  - intros k e Hk Hid. rewrite updateLayer_lookup, Hk; simpl.
    f_equal. apply update_entry_other, Hid.
  - intros k old Hk Hid. exists (spread old updates). split.
    + rewrite updateLayer_lookup, Hk; simpl. f_equal.
      apply update_entry_match, Hid.
    + apply spread_patched.
  - intros l1 L l2 Hl Hid Hno. exists (spread L updates). split.
    + eapply updateLayer_unique; eassumption.
    + apply spread_patched.
Qed.

(** C7. When no layer has the id, [updateLayer id updates] returns the state
    it was given: same collection, same selection.  The operation is a total
    function, so there is no failure to signal. *)
Theorem updateLayer_missing_noop (state : EditorState) (id : Z)
    (updates : Partial.t) :
  ¬ present id state → updateLayer id updates state = state.
Proof.
  intros H. destruct state as [l sel]. unfold updateLayer, set; simpl.
  f_equal. apply update_entries_other.
  apply (proj1 (not_present_lookup id (mkState l sel)) H).
Qed.

(** ** deleteSelectedLayer *)

Lemma deleteSelectedLayer_layers state :
  layers (deleteSelectedLayer state)
  = filter (λ e, ¬ id_is_selection (selectedLayerId state) e) (layers state).
Proof. reflexivity. Qed.

Lemma deleteSelectedLayer_elem state e :
  e ∈ layers (deleteSelectedLayer state) ↔ e ∈ layers state ∧ ¬ selected state e.
Proof.
  rewrite deleteSelectedLayer_layers, list_elem_of_filter, id_is_selection_spec.
  tauto.
Qed.

Lemma deleteSelectedLayer_none_selected state :
  (∀ e, e ∈ layers state → ¬ selected state e) →
  layers (deleteSelectedLayer state) = layers state.
Proof. intros H. rewrite deleteSelectedLayer_layers. apply filter_unselected_all, H. Qed.

(** C4. After [deleteSelectedLayer] the selection is [null].  An entry is in
    the collection afterwards exactly when it was there before and is not
    the selected one.  Nothing is removed when the selection is [null] or
    names no layer of the collection, and when it names one layer, that
    layer alone is taken out of the list. *)
Theorem deleteSelectedLayer_removes_selected (state : EditorState) :
  selectedLayerId (deleteSelectedLayer state) = None
  ∧ (∀ e, e ∈ layers (deleteSelectedLayer state)
          ↔ e ∈ layers state ∧ ¬ selected state e)
  ∧ (selectedLayerId state = None →
       layers (deleteSelectedLayer state) = layers state)
  ∧ (∀ id, selectedLayerId state = Some id → ¬ present id state →
       layers (deleteSelectedLayer state) = layers state)
  ∧ (∀ l1 L l2, layers state = l1 ++ Full L :: l2 →
       selectedLayerId state = Some (Layer.id L) →
       Some (Layer.id L) ∉ entry_id <$> (l1 ++ l2) →
       layers (deleteSelectedLayer state) = l1 ++ l2).
Proof.
  split; [reflexivity|]. split; [apply deleteSelectedLayer_elem|].
  split; [|split].
  - intros Hsel. apply deleteSelectedLayer_none_selected.
    intros e _ (id & Hid & _). congruence.
  - intros id Hsel Hno. apply deleteSelectedLayer_none_selected.
    intros e He (id' & Hid' & Heq).
    rewrite Hsel in Hid'. injection Hid' as <-.
    exact (proj1 (not_present_lookup id state) Hno e He Heq).
  - intros l1 L l2 Hl Hsel Hno.
    assert (Hother : ∀ e, e ∈ l1 ++ l2 → ¬ selected state e).
    { intros e He (id & Hid & Heq). apply Hno.
      rewrite Hsel in Hid. injection Hid as <-.
      apply list_elem_of_fmap. exists e. auto. }
    rewrite deleteSelectedLayer_layers, Hl, filter_app, filter_cons_False.
    + rewrite !filter_unselected_all; [reflexivity| |];
        intros e He; apply Hother; apply elem_of_app; auto.
    + intros Hn. apply Hn. apply id_is_selection_spec.
      exists (Layer.id L). auto.
Qed.

(** C9. The collection after [deleteSelectedLayer] is a subsequence of the
    collection before: the surviving entries are the very same values
    ([zIndex] and every other field as before), in the same relative order.
    Every entry that is not the selected one survives, so the list of
    [zIndex] values afterwards is the old one with the removed entries'
    values taken out, and no value is recomputed. *)
Theorem deleteSelectedLayer_keeps_survivors (state : EditorState) :
  layers (deleteSelectedLayer state) `sublist_of` layers state
  ∧ (∀ e, e ∈ layers state → ¬ selected state e →
          e ∈ layers (deleteSelectedLayer state))
  ∧ zIndexes (deleteSelectedLayer state) `sublist_of` zIndexes state.
Proof.
  assert (Hsub : layers (deleteSelectedLayer state) `sublist_of` layers state).
  { rewrite deleteSelectedLayer_layers. apply sublist_filter. }
  split; [exact Hsub|]. split.
  - intros e He Hn. apply deleteSelectedLayer_elem. auto.
  - unfold zIndexes. apply fmap_sublist, Hsub.
Qed.

(** ** splice *)

Section splice.
Context {A : Type}.
Implicit Types (arr items : list A) (start deleteCount : Z).

Lemma relative_start_le (len : nat) start :
  (relative_start (Z.of_nat len) start ≤ len)%nat.
Proof. unfold relative_start. destruct (Z.ltb_spec start 0); lia. Qed.

Lemma relative_start_in_range (len i : nat) :
  (i ≤ len)%nat → relative_start (Z.of_nat len) (Z.of_nat i) = i.
Proof.
  intros H. unfold relative_start.
  destruct (Z.ltb_spec (Z.of_nat i) 0); lia.
Qed.

(** What is removed and what is left make up the array. *)
Lemma splice_removed_rest arr start deleteCount :
  (splice arr start deleteCount []).1 ++ (splice arr start deleteCount []).2 ≡ₚ arr.
Proof.
  unfold splice; simpl.
  set (from := relative_start _ _). set (count := Z.to_nat _).
  rewrite (Permutation_app_comm (take count _)), <- app_assoc.
  rewrite (Permutation_app_comm (drop _ _)).
  rewrite <- drop_drop, take_drop, take_drop. reflexivity.
Qed.

Lemma splice_removed_length arr start deleteCount items :
  (length (splice arr start deleteCount items).1 ≤ Z.to_nat deleteCount)%nat.
Proof. unfold splice; simpl. rewrite length_take. lia. Qed.

(** With a delete count of 0, [splice] inserts and loses nothing. *)
Lemma splice_insert_perm arr start items :
  (splice arr start 0 items).2 ≡ₚ items ++ arr.
Proof.
  unfold splice; simpl.
  pose proof (relative_start_le (length arr) start) as Hle.
  set (from := relative_start _ _) in *.
  replace (Z.to_nat _) with 0%nat by lia.
  rewrite Nat.add_0_r, Permutation_app_swap_app, take_drop. reflexivity.
Qed.

Lemma splice_insert_at arr (j : nat) items :
  (j ≤ length arr)%nat →
  (splice arr (Z.of_nat j) 0 items).2 = take j arr ++ items ++ drop j arr.
Proof.
  intros H. unfold splice; simpl. rewrite relative_start_in_range by exact H.
  replace (Z.to_nat _) with 0%nat by lia. rewrite Nat.add_0_r. reflexivity.
Qed.

Lemma splice_remove_at arr (i : nat) x :
  arr !! i = Some x →
  splice arr (Z.of_nat i) 1 [] = ([x], delete i arr).
Proof.
  intros Hx. pose proof (lookup_lt_Some _ _ _ Hx) as Hlt.
  unfold splice. rewrite relative_start_in_range by lia.
  replace (Z.to_nat _) with 1%nat by lia.
  rewrite (drop_S _ _ _ Hx), delete_take_drop, Nat.add_1_r. reflexivity.
Qed.


End splice.

#[local] Arguments splice : simpl never.

(** ** reorderLayers *)

Lemma reorderLayers_layers startIndex endIndex state :
  layers (reorderLayers startIndex endIndex state)
  = renumber (spliced startIndex endIndex (layers state)).
Proof. reflexivity. Qed.

Lemma reorderLayers_selection startIndex endIndex state :
  selectedLayerId (reorderLayers startIndex endIndex state) = selectedLayerId state.
Proof. reflexivity. Qed.

Lemma length_renumber xs : length (renumber xs) = length xs.
Proof. unfold renumber. apply length_imap. Qed.

Lemma renumber_lookup xs k :
  renumber xs !! k
  = (λ o, respread o (Z.of_nat (length xs) - 1 - Z.of_nat k)) <$> xs !! k.
Proof. unfold renumber. apply list_lookup_imap. Qed.

Lemma entry_zIndex_respread o z : entry_zIndex (respread o z) = z.
Proof. destruct o as [[layer|z']|]; reflexivity. Qed.

Lemma forget_zIndex_respread e z :
  forget_zIndex (respread (Some e) z) = forget_zIndex e.
Proof. destruct e; reflexivity. Qed.

Lemma entry_id_respread e z : entry_id (respread (Some e) z) = entry_id e.
Proof. destruct e; reflexivity. Qed.

Lemma entry_id_forget_zIndex e : entry_id (forget_zIndex e) = entry_id e.
Proof. destruct e; reflexivity. Qed.

(** Renumbering gives the entry at position [k] the rank [n - 1 - k],
    whatever the array holds. *)
Lemma renumber_zIndexes xs : entry_zIndex <$> renumber xs = ranks (length xs).
Proof.
  apply list_eq. intros k. unfold ranks.
  rewrite !list_lookup_fmap, renumber_lookup.
  destruct (xs !! k) as [o|] eqn:Hk; simpl.
  - rewrite entry_zIndex_respread.
    rewrite lookup_seq_lt by (eapply lookup_lt_Some; eassumption). reflexivity.
  - rewrite lookup_seq_ge by (apply lookup_ge_None; exact Hk). reflexivity.
Qed.

(** Renumbering changes no field but [zIndex]. *)
Lemma renumber_forget (l : list Entry) :
  forget_zIndex <$> renumber (Some <$> l) = forget_zIndex <$> l.
Proof.
  apply list_eq. intros k.
  rewrite !list_lookup_fmap, renumber_lookup, list_lookup_fmap.
  destruct (l !! k) as [[layer|z]|]; reflexivity.
Qed.

(** A start index in range: the two [splice] calls are the move of the
    specification. *)
Lemma spliced_in_range (l : list Entry) (i j : nat) :
  (i < length l)%nat → (j < length l)%nat →
  spliced (Z.of_nat i) (Z.of_nat j) l = Some <$> move i j l.
Proof.
  intros Hi Hj. unfold spliced, move.
  destruct (lookup_lt_is_Some_2 l i Hi) as [x Hx].
  rewrite (splice_remove_at (Some <$> l) i (Some x))
    by (rewrite list_lookup_fmap, Hx; reflexivity).
  cbn [fst snd]. change (mjoin (head [Some x])) with (Some x).
  rewrite splice_insert_at.
  - rewrite Hx, fmap_app, fmap_cons, fmap_take, fmap_drop, list_fmap_delete.
    reflexivity.
  - rewrite length_delete by (rewrite list_lookup_fmap, Hx; eauto).
    rewrite length_fmap. lia.
Qed.

(** Whatever the indices, the two [splice] calls keep every element of the
    collection, and add [undefined] when the start index removed nothing. *)
Lemma spliced_perm (l : list Entry) startIndex endIndex :
  spliced startIndex endIndex l ≡ₚ Some <$> l
  ∨ spliced startIndex endIndex l ≡ₚ None :: (Some <$> l).
Proof.
  unfold spliced.
  pose proof (splice_removed_rest (Some <$> l) startIndex 1) as Hall.
  pose proof (splice_removed_length (Some <$> l) startIndex 1 []) as Hlen.
  destruct (splice (Some <$> l) startIndex 1 []) as [removed rest].
  cbn [fst snd] in *. rewrite splice_insert_perm.
  destruct removed as [|x [|? ?]]; simpl in Hlen; [| |lia].
  - right. simpl in *. rewrite Hall. reflexivity.
  - assert (Hx : x ∈ Some <$> l) by (rewrite <- Hall; left).
    apply list_elem_of_fmap in Hx as (e & -> & _).
    left. exact Hall.
Qed.

Lemma spliced_in_range_perm (l : list Entry) (i : nat) endIndex :
  (i < length l)%nat → spliced (Z.of_nat i) endIndex l ≡ₚ Some <$> l.
Proof.
  intros Hi. unfold spliced.
  destruct (lookup_lt_is_Some_2 l i Hi) as [x Hx].
  rewrite (splice_remove_at (Some <$> l) i (Some x))
    by (rewrite list_lookup_fmap, Hx; reflexivity).
  cbn [fst snd]. change (mjoin (head [Some x])) with (Some x).
  rewrite splice_insert_perm. cbn [app].
  rewrite <- list_fmap_delete, <- fmap_cons.
  apply fmap_Permutation. symmetry. apply delete_Permutation, Hx.
Qed.

(** ** move *)

Lemma move_length {A} (l : list A) (i j : nat) : length (move i j l) = length l.
Proof.
  unfold move. destruct (l !! i) as [x|] eqn:Hx; [|reflexivity].
  pose proof (lookup_lt_Some _ _ _ Hx).
  rewrite length_app, length_cons, length_take, length_drop, length_delete by eauto.
  lia.
Qed.

(** The moved item stands at position [to]. *)
Lemma move_lookup_to {A} (l : list A) (i j : nat) :
  (i < length l)%nat → (j < length l)%nat → move i j l !! j = l !! i.
Proof.
  intros Hi Hj. unfold move.
  destruct (lookup_lt_is_Some_2 l i Hi) as [x Hx]. rewrite Hx.
  assert (Hlen : length (take j (delete i l)) = j).
  { rewrite length_take, length_delete by eauto. lia. }
  apply list_lookup_middle. symmetry. exact Hlen.
Qed.

(** The items around it are those of the list without the moved item, in
    their order. *)
Lemma move_delete_to {A} (l : list A) (i j : nat) :
  (i < length l)%nat → (j < length l)%nat → delete j (move i j l) = delete i l.
Proof.
  intros Hi Hj. unfold move.
  destruct (lookup_lt_is_Some_2 l i Hi) as [x Hx]. rewrite Hx.
  assert (Hlen : length (take j (delete i l)) = j).
  { rewrite length_take, length_delete by eauto. lia. }
  set (before := take j (delete i l)) in *.
  rewrite <- Hlen at 1. rewrite delete_middle. apply take_drop.
Qed.

Lemma renumber_forget_any xs :
  forget_zIndex <$> renumber xs = (λ o, forget_zIndex (respread o 0)) <$> xs.
Proof.
  apply list_eq. intros k.
  rewrite !list_lookup_fmap, renumber_lookup.
  destruct (xs !! k) as [[[layer|z]|]|]; reflexivity.
Qed.

(** With indices in range, [reorderLayers] is the move of the specification
    followed by the renumbering. *)
Lemma reorderLayers_is_move state (i j : nat) :
  (i < length (layers state))%nat → (j < length (layers state))%nat →
  layers (reorderLayers (Z.of_nat i) (Z.of_nat j) state)
  = renumber (Some <$> move i j (layers state)).
Proof.
  intros Hi Hj. rewrite reorderLayers_layers, spliced_in_range by assumption.
  reflexivity.
Qed.

(** C2. For a collection of [N] layers and indices [i], [j] below [N], after
    [reorderLayers(i, j)] the collection still has [N] layers; up to
    [zIndex], the layer at position [j] is the one that was at position [i],
    and the list without position [j] is the old list without position [i]
    (so every other layer keeps its place relative to the others); and the
    layer at every position [k] has [zIndex = N - 1 - k]. *)
Theorem reorderLayers_inverse_rank (state : EditorState) (i j : nat) :
  (i < length (layers state))%nat →
  (j < length (layers state))%nat →
  length (layers (reorderLayers (Z.of_nat i) (Z.of_nat j) state))
  = length (layers state)
  ∧ forget_zIndex <$> layers (reorderLayers (Z.of_nat i) (Z.of_nat j) state) !! j
    = forget_zIndex <$> layers state !! i
  ∧ delete j (forget_zIndex <$> layers (reorderLayers (Z.of_nat i) (Z.of_nat j) state))
    = delete i (forget_zIndex <$> layers state)
  ∧ ∀ (k : nat) e,
      layers (reorderLayers (Z.of_nat i) (Z.of_nat j) state) !! k = Some e →
      entry_zIndex e = Z.of_nat (length (layers state)) - 1 - Z.of_nat k.
Proof.
  intros Hi Hj. rewrite reorderLayers_is_move by assumption.
  assert (Hlen : length (Some <$> move i j (layers state)) = length (layers state)).
  { rewrite length_fmap. apply move_length. }
  split; [|split; [|split]].
  - rewrite length_renumber. exact Hlen.
  - rewrite <- list_lookup_fmap, renumber_forget, list_lookup_fmap.
    rewrite move_lookup_to by assumption. reflexivity.
  - rewrite renumber_forget, <- !list_fmap_delete.
    rewrite move_delete_to by assumption. reflexivity.
  - intros k e Hk. rewrite renumber_lookup, Hlen in Hk.
    destruct (_ !! k) as [o|]; [|discriminate].
    injection Hk as <-. apply entry_zIndex_respread.
Qed.

(** C10. With a start index in range (and any end index, in range or not),
    [reorderLayers] keeps the layers as a multiset once [zIndex] is set
    aside: no layer is created, duplicated or lost, and no field other than
    [zIndex] changes.  In particular the multiset of ids is the same.  The
    selection is the same. *)
Theorem reorderLayers_frame (state : EditorState) (i : nat) (endIndex : Z) :
  (i < length (layers state))%nat →
  forget_zIndex <$> layers (reorderLayers (Z.of_nat i) endIndex state)
    ≡ₚ forget_zIndex <$> layers state
  ∧ entry_id <$> layers (reorderLayers (Z.of_nat i) endIndex state)
    ≡ₚ entry_id <$> layers state
  ∧ selectedLayerId (reorderLayers (Z.of_nat i) endIndex state)
    = selectedLayerId state.
Proof.
  intros Hi.
  assert (Hforget :
    forget_zIndex <$> layers (reorderLayers (Z.of_nat i) endIndex state)
      ≡ₚ forget_zIndex <$> layers state).
  { rewrite reorderLayers_layers, renumber_forget_any.
    rewrite (spliced_in_range_perm _ _ endIndex Hi).
    rewrite <- list_fmap_compose.
    rewrite (list_fmap_ext _ forget_zIndex (layers state)); [reflexivity|].
    intros k [layer|z] _; reflexivity. }
  split; [exact Hforget|]. split; [|reflexivity].
  assert (Hid : ∀ l : list Entry, entry_id <$> l = entry_id <$> (forget_zIndex <$> l)).
  { intros l. rewrite <- list_fmap_compose. apply list_fmap_ext.
    intros k e _. symmetry. apply entry_id_forget_zIndex. }
  rewrite (Hid (layers state)), (Hid (layers (reorderLayers _ _ _))).
  apply fmap_Permutation, Hforget.
Qed.

(** ** Invariants of sequences of calls *)

Section run_if.
Context (ok : EditorState → Op → bool) (Inv : EditorState → Prop).
Hypothesis Inv_step :
  ∀ state op, Inv state → ok state op = true → Inv (step state op).

Lemma run_if_invariant ops state state' :
  Inv state → run_if ok state ops = Some state' → Inv state'.
Proof using Inv_step.
  revert state. induction ops as [|op ops IH]; intros state Hinv Hrun; simpl in Hrun.
  - injection Hrun as <-. exact Hinv.
  - destruct (ok state op) eqn:Hok; [|discriminate].
    eapply IH; [|exact Hrun]. apply Inv_step; assumption.
Qed.
End run_if.

(** *** The ranking *)

Lemma ranks_S n : ranks (S n) = Z.of_nat n :: ranks n.
Proof.
  unfold ranks. cbn [seq]. rewrite <- fmap_S_seq. csimpl. f_equal; [lia|].
  rewrite <- list_fmap_compose. apply list_fmap_ext. intros _ k _; simpl. lia.
Qed.

Lemma NoDup_ranks n : NoDup (ranks n).
Proof.
  unfold ranks. apply NoDup_fmap_2_strong; [|apply NoDup_seq].
  intros a b _ _ H. lia.
Qed.

Lemma ranked_initial : ranked initial.
Proof. reflexivity. Qed.

Lemma ranked_reorderLayers startIndex endIndex state :
  ranked (reorderLayers startIndex endIndex state).
Proof.
  unfold ranked, zIndexes. rewrite reorderLayers_layers.
  rewrite renumber_zIndexes, length_renumber. reflexivity.
Qed.

Lemma ranked_addLayer layer state : ranked state → ranked (addLayer layer state).
Proof.
  unfold ranked, zIndexes. intros Hr.
  change (layers (addLayer layer state))
    with (Full (Layer.with_zIndex layer (Z.of_nat (length (layers state))))
          :: layers state).
  rewrite fmap_cons, length_cons, ranks_S, Hr. reflexivity.
Qed.

Lemma entry_zIndex_update id updates e :
  Partial.zIndex updates = None →
  entry_zIndex (update_entry id updates e) = entry_zIndex e.
Proof.
  intros Hz. destruct e as [layer|z]; simpl; [|reflexivity].
  destruct (Layer.id layer =? id); simpl; [|reflexivity].
  rewrite Hz. reflexivity.
Qed.

Lemma ranked_updateLayer id updates state :
  Partial.zIndex updates = None →
  ranked state → ranked (updateLayer id updates state).
Proof.
  unfold ranked, zIndexes. intros Hz Hr.
  change (layers (updateLayer id updates state))
    with (update_entry id updates <$> layers state).
  rewrite length_fmap, <- Hr, <- list_fmap_compose.
  apply list_fmap_ext. intros k e _. apply entry_zIndex_update, Hz.
Qed.

Lemma ranked_step state op :
  ranked state → keeps_ranking state op = true → ranked (step state op).
Proof.
  intros Hr Hok. destruct op as [layer|id updates|id|i j|]; simpl in *.
  - apply ranked_addLayer, Hr.
  - apply ranked_updateLayer; [|exact Hr].
    destruct (Partial.zIndex updates); [discriminate|reflexivity].
  - exact Hr.
  - apply ranked_reorderLayers.
  - discriminate.
Qed.

(** *** The selection *)

Lemma present_addLayer id layer state :
  present id state → present id (addLayer layer state).
Proof.
  unfold present. intros H.
  change (layers (addLayer layer state))
    with (Full (Layer.with_zIndex layer (Z.of_nat (length (layers state))))
          :: layers state).
  rewrite fmap_cons. right. exact H.
Qed.

Lemma entry_id_update id updates e :
  Partial.id updates = None →
  entry_id (update_entry id updates e) = entry_id e.
Proof.
  intros Hi. destruct e as [layer|z]; simpl; [|reflexivity].
  destruct (Layer.id layer =? id); simpl; [|reflexivity].
  rewrite Hi. reflexivity.
Qed.

Lemma present_updateLayer id id' updates state :
  Partial.id updates = None →
  present id state → present id (updateLayer id' updates state).
Proof.
  unfold present. intros Hi H.
  change (layers (updateLayer id' updates state))
    with (update_entry id' updates <$> layers state).
  rewrite <- list_fmap_compose.
  rewrite (list_fmap_ext _ entry_id (layers state)); [exact H|].
  intros k e _. apply entry_id_update, Hi.
Qed.

(** [reorderLayers] loses no id, whatever its indices. *)
Lemma present_reorderLayers id startIndex endIndex state :
  present id state → present id (reorderLayers startIndex endIndex state).
Proof.
  unfold present. rewrite reorderLayers_layers, !list_elem_of_fmap.
  intros (e & Hid & He).
  assert (Hin : Some e ∈ spliced startIndex endIndex (layers state)).
  { destruct (spliced_perm (layers state) startIndex endIndex) as [-> | ->].
    - apply list_elem_of_fmap. eauto.
    - right. apply list_elem_of_fmap. eauto. }
  apply list_elem_of_lookup in Hin as [k Hk].
  exists (respread (Some e)
            (Z.of_nat (length (spliced startIndex endIndex (layers state)))
             - 1 - Z.of_nat k)).
  split.
  - rewrite entry_id_respread. exact Hid.
  - apply (list_elem_of_lookup_2 _ k). rewrite renumber_lookup, Hk. reflexivity.
Qed.

Lemma existsb_id_is_present id state :
  existsb (id_is id) (layers state) = true → present id state.
Proof.
  unfold present. rewrite existsb_exists. intros (e & He & Hid).
  apply list_elem_of_fmap. exists e. split.
  - symmetry. apply id_is_true, Hid.
  - apply list_elem_of_In, He.
Qed.

Lemma selection_valid_step state op :
  selection_valid state → keeps_selection state op = true →
  selection_valid (step state op).
Proof.
  unfold selection_valid. intros Hv Hok.
  destruct op as [layer|id updates|[id|]|i j|]; simpl in *.
  - destruct (selectedLayerId state); [|exact I]. apply present_addLayer, Hv.
  - destruct (selectedLayerId state); [|exact I].
    apply present_updateLayer; [|exact Hv].
    destruct (Partial.id updates); [discriminate|reflexivity].
  - apply (existsb_id_is_present id state), Hok.
  - exact I.
  - destruct (selectedLayerId state); [|exact I].
    apply present_reorderLayers, Hv.
  - exact I.
Qed.

(** C1, as the code has it.  From the empty state, after any sequence of
    [addLayer] (fresh id or not), [selectLayer], [reorderLayers] (any
    indices) and [updateLayer] calls whose patch does not name [zIndex], the
    entry at position [k] of the [N] entries has [zIndex = N - 1 - k]; so
    the [zIndex] values are pairwise distinct. *)
Theorem zIndex_distinct_while_ranked (ops : list Op) (state : EditorState) :
  run_if keeps_ranking initial ops = Some state →
  zIndexes state = ranks (length (layers state)) ∧ NoDup (zIndexes state).
Proof.
  intros Hrun.
  assert (Hr : ranked state).
  { eapply (run_if_invariant keeps_ranking ranked ranked_step);
      [apply ranked_initial | exact Hrun]. }
  split; [exact Hr|]. rewrite Hr. apply NoDup_ranks.
Qed.

(** C6, as the code has it.  From the empty state, after any sequence of
    calls in which every [selectLayer] is given [null] or the id of a layer
    that is in the collection at the time of the call, and no [updateLayer]
    patch names [id], the selection is [null] or the id of a layer of the
    collection. *)
Theorem selection_valid_when_callers_check (ops : list Op) (state : EditorState) :
  run_if keeps_selection initial ops = Some state → selection_valid state.
Proof.
  intros Hrun.
  apply (run_if_invariant keeps_selection selection_valid selection_valid_step
           ops initial state); [exact I | exact Hrun].
Qed.

(** ** Further properties of the store *)

Lemma ids_renumber xs : omap entry_id (renumber xs) = omap (λ o, o ≫= entry_id) xs.
Proof.
  unfold renumber. generalize (Z.of_nat (length xs)). intros n.
  assert (H : ∀ (f : nat → Z),
    omap entry_id (imap (λ index layer, respread layer (f index)) xs)
    = omap (λ o, o ≫= entry_id) xs).
  { induction xs as [|o xs IH]; intros f; [reflexivity|].
    rewrite imap_cons. cbn [omap list_omap].
    rewrite <- (IH (f ∘ S)).
    destruct o as [[layer|z]|]; reflexivity. }
  apply (H (λ index, n - 1 - Z.of_nat index)).
Qed.

Lemma ids_Some (l : list Entry) :
  omap (λ o, o ≫= entry_id) (Some <$> l) = omap entry_id l.
Proof.
  induction l as [|e l IH]; [reflexivity|].
  csimpl. rewrite IH. reflexivity.
Qed.

(** [reorderLayers] keeps the ids as a multiset, whatever its indices. *)
Lemma ids_reorderLayers startIndex endIndex state :
  ids (reorderLayers startIndex endIndex state) ≡ₚ ids state.
Proof.
  unfold ids. rewrite reorderLayers_layers, ids_renumber.
  destruct (spliced_perm (layers state) startIndex endIndex) as [-> | ->].
  - rewrite ids_Some. reflexivity.
  - csimpl. rewrite ids_Some. reflexivity.
Qed.

Lemma ids_updateLayer id updates state :
  Partial.id updates = None → ids (updateLayer id updates state) = ids state.
Proof.
  intros Hi. unfold ids.
  change (layers (updateLayer id updates state))
    with (update_entry id updates <$> layers state).
  induction (layers state) as [|e l IH]; [reflexivity|].
  csimpl. rewrite IH, (entry_id_update _ _ _ Hi). reflexivity.
Qed.

Lemma ids_deleteSelectedLayer state :
  ids (deleteSelectedLayer state) `sublist_of` ids state.
Proof.
  unfold ids. rewrite deleteSelectedLayer_layers.
  induction (layers state) as [|e l IH]; [reflexivity|].
  destruct (decide (¬ id_is_selection (selectedLayerId state) e)) as [Hk|Hk].
  - rewrite filter_cons_True by exact Hk. csimpl.
    destruct (entry_id e); [apply sublist_skip|]; exact IH.
  - rewrite filter_cons_False by exact Hk. csimpl.
    destruct (entry_id e); [apply sublist_cons|]; exact IH.
Qed.

Lemma fresh_id_not_in layer state :
  fresh_id state (AddLayer layer) = true → Layer.id layer ∉ ids state.
Proof.
  unfold ids. simpl. rewrite forallb_forall. intros Hf Hin.
  apply list_elem_of_omap in Hin as (e & He & Hid).
  apply list_elem_of_In in He. specialize (Hf e He).
  apply negb_true_iff, id_is_false in Hf. exact (Hf Hid).
Qed.

Lemma ids_distinct_step state op :
  NoDup (ids state) → keeps_ids state op = true → NoDup (ids (step state op)).
Proof.
  intros Hn Hok. apply andb_true_iff in Hok as [Hfresh Hpatch].
  destruct op as [layer|id updates|id|i j|]; simpl.
  - change (ids (addLayer layer state)) with (Layer.id layer :: ids state).
    apply NoDup_cons. split; [apply fresh_id_not_in, Hfresh | exact Hn].
  - rewrite ids_updateLayer; [exact Hn|].
    destruct (Partial.id updates); [discriminate|reflexivity].
  - exact Hn.
  - rewrite ids_reorderLayers. exact Hn.
  - exact (sublist_NoDup _ _ Hn (ids_deleteSelectedLayer state)).
Qed.

(** The ids stay pairwise distinct: from the empty state, after any sequence
    of calls in which every [addLayer] is given an id no layer of the
    collection has, and no [updateLayer] patch names [id], no two layers of
    the collection have the same id. *)
Theorem ids_distinct (ops : list Op) (state : EditorState) :
  run_if keeps_ids initial ops = Some state → NoDup (ids state).
Proof.
  intros Hrun.
  apply (run_if_invariant keeps_ids (λ st, NoDup (ids st)) ids_distinct_step
           ops initial state); [apply NoDup_nil_2 | exact Hrun].
Qed.

(** [reorderLayers] ranks the collection from any state and with any
    indices, in range or not: afterwards the entry at position [k] of the
    [N'] entries has [zIndex = N' - 1 - k]. *)
Theorem reorderLayers_ranks (startIndex endIndex : Z) (state : EditorState) :
  zIndexes (reorderLayers startIndex endIndex state)
  = ranks (length (layers (reorderLayers startIndex endIndex state)))
  ∧ NoDup (zIndexes (reorderLayers startIndex endIndex state)).
Proof.
  pose proof (ranked_reorderLayers startIndex endIndex state) as Hr.
  split; [exact Hr|]. unfold ranked in Hr. rewrite Hr. apply NoDup_ranks.
Qed.


(** [deleteSelectedLayer] on its own keeps the [zIndex] values pairwise
    distinct; it leaves a gap in the ranking, which the next [addLayer] may
    fill a second time. *)
Theorem deleteSelectedLayer_keeps_distinct (state : EditorState) :
  NoDup (zIndexes state) → NoDup (zIndexes (deleteSelectedLayer state)).
Proof.
  intros Hn. refine (sublist_NoDup _ _ Hn _).
  unfold zIndexes. apply fmap_sublist.
  rewrite deleteSelectedLayer_layers. apply sublist_filter.
Qed.

(** [selectLayer] stores the id it is given, whether a layer has it or not,
    and leaves the collection alone. *)
Theorem selectLayer_sets_selection (id : option Z) (state : EditorState) :
  selectedLayerId (selectLayer id state) = id
  ∧ layers (selectLayer id state) = layers state.
Proof. split; reflexivity. Qed.

(** ** How the operations compose *)

Lemma state_eq (s1 s2 : EditorState) :
  layers s1 = layers s2 → selectedLayerId s1 = selectedLayerId s2 → s1 = s2.
Proof. destruct s1, s2; simpl. intros -> ->. reflexivity. Qed.

(** *** Moving an item and moving it back *)

Lemma reinsert_deleted {A} (l : list A) i x :
  l !! i = Some x → take i (delete i l) ++ x :: drop i (delete i l) = l.
Proof.
  intros Hx. pose proof (lookup_lt_Some _ _ _ Hx) as Hi.
  assert (Hlen : i = length (take i l)) by (rewrite length_take; lia).
  rewrite delete_take_drop.
  rewrite (take_app_length' _ _ _ Hlen), (drop_app_length' _ _ _ Hlen).
  apply take_drop_middle, Hx.
Qed.

Lemma move_same {A} (l : list A) i : move i i l = l.
Proof.
  unfold move. destruct (l !! i) as [x|] eqn:Hx; [|reflexivity].
  apply reinsert_deleted, Hx.
Qed.

Lemma move_back {A} (l : list A) i j :
  (i < length l)%nat → (j < length l)%nat → move j i (move i j l) = l.
Proof.
  intros Hi Hj. destruct (lookup_lt_is_Some_2 l i Hi) as [x Hx].
  unfold move at 1.
  rewrite move_lookup_to, Hx, move_delete_to by assumption.
  apply reinsert_deleted, Hx.
Qed.

Lemma fmap_move {A B} (f : A → B) (l : list A) i j :
  f <$> move i j l = move i j (f <$> l).
Proof.
  unfold move. rewrite list_lookup_fmap.
  destruct (l !! i) as [x|]; simpl; [|reflexivity].
  rewrite fmap_app, fmap_cons, fmap_take, fmap_drop, list_fmap_delete.
  reflexivity.
Qed.

Lemma respread_forget e1 e2 z :
  forget_zIndex e1 = forget_zIndex e2 → respread (Some e1) z = respread (Some e2) z.
Proof.
  destruct e1 as [[]|], e2 as [[]|]; simpl; intros H; try discriminate;
    [injection H as -> -> -> -> -> -> -> -> ->|]; reflexivity.
Qed.

(** Renumbering looks at no [zIndex]. *)
Lemma renumber_ext (l1 l2 : list Entry) :
  forget_zIndex <$> l1 = forget_zIndex <$> l2 →
  renumber (Some <$> l1) = renumber (Some <$> l2).
Proof.
  intros H. assert (Hlen : length l1 = length l2).
  { rewrite <- (length_fmap forget_zIndex l1), H. apply length_fmap. }
  apply list_eq. intros k.
  rewrite !renumber_lookup, !length_fmap, Hlen, !list_lookup_fmap.
  assert (Hk : forget_zIndex <$> l1 !! k = forget_zIndex <$> l2 !! k)
    by (rewrite <- !list_lookup_fmap, H; reflexivity).
  destruct (l1 !! k) as [e1|], (l2 !! k) as [e2|]; simpl in *;
    try discriminate; [|reflexivity].
  f_equal. apply respread_forget. congruence.
Qed.

Lemma ranks_lookup n k :
  (k < n)%nat → ranks n !! k = Some (Z.of_nat n - 1 - Z.of_nat k).
Proof.
  intros Hk. unfold ranks. rewrite list_lookup_fmap, lookup_seq_lt by exact Hk.
  reflexivity.
Qed.

Lemma respread_same e : respread (Some e) (entry_zIndex e) = e.
Proof. destruct e as [[]|]; reflexivity. Qed.

(** Renumbering a ranked collection changes nothing. *)
Lemma renumber_ranked state :
  ranked state → renumber (Some <$> layers state) = layers state.
Proof.
  intros Hr. apply list_eq. intros k.
  rewrite renumber_lookup, length_fmap, list_lookup_fmap.
  destruct (layers state !! k) as [e|] eqn:Hk; [|reflexivity].
  assert (Hz : zIndexes state !! k = Some (entry_zIndex e))
    by (unfold zIndexes; rewrite list_lookup_fmap, Hk; reflexivity).
  rewrite Hr, ranks_lookup in Hz by (eapply lookup_lt_Some; eassumption).
  injection Hz as Hz. cbn -[respread Z.of_nat Z.sub].
  rewrite Hz, respread_same. reflexivity.
Qed.

Lemma renumber_restores state (l : list Entry) :
  ranked state →
  forget_zIndex <$> l = forget_zIndex <$> layers state →
  renumber (Some <$> l) = layers state.
Proof.
  intros Hr H. rewrite (renumber_ext _ _ H). apply renumber_ranked, Hr.
Qed.

(** Dropping an item where it was picked up, or dragging it away and then
    back, leaves a ranked store exactly as it was: same order, same
    [zIndex] values, same selection. *)
Theorem drag_back_restores (state : EditorState) (i j : nat) :
  ranked state →
  (i < length (layers state))%nat →
  (j < length (layers state))%nat →
  reorderLayers (Z.of_nat i) (Z.of_nat i) state = state
  ∧ reorderLayers (Z.of_nat j) (Z.of_nat i)
      (reorderLayers (Z.of_nat i) (Z.of_nat j) state) = state.
Proof.
  intros Hr Hi Hj. split.
  - apply state_eq; [|reflexivity].
    rewrite reorderLayers_is_move by assumption.
    apply renumber_restores; [exact Hr|]. rewrite move_same. reflexivity.
  - apply state_eq; [|reflexivity].
    assert (Hlen : length (layers (reorderLayers (Z.of_nat i) (Z.of_nat j) state))
                   = length (layers state)).
    { rewrite reorderLayers_is_move, length_renumber, length_fmap by assumption.
      apply move_length. }
    rewrite reorderLayers_is_move by (rewrite Hlen; assumption).
    apply renumber_restores; [exact Hr|].
    rewrite fmap_move, reorderLayers_is_move, renumber_forget by assumption.
    rewrite fmap_move. apply move_back; rewrite length_fmap; assumption.
Qed.

(** *** Selecting and deleting *)

Lemma filter_unselected_at state (l : list Entry) k layer :
  NoDup (omap entry_id l) →
  l !! k = Some (Full layer) →
  selectedLayerId state = Some (Layer.id layer) →
  filter (λ e, ¬ id_is_selection (selectedLayerId state) e) l = delete k l.
Proof.
  intros Hn Hk Hsel.
  rewrite <- (take_drop_middle _ _ _ Hk) in Hn.
  rewrite omap_app in Hn. cbn [omap list_omap entry_id] in Hn.
  apply NoDup_app in Hn as (_ & Hl1 & Hn).
  apply NoDup_cons in Hn as [Hl2 _].
  assert (Hnot : ∀ e, entry_id e = Some (Layer.id layer) → ¬ selected state e → False).
  { intros e He Hs. apply Hs. exists (Layer.id layer). auto. }
  rewrite <- (take_drop_middle _ _ _ Hk) at 1.
  rewrite filter_app, filter_cons_False.
  - rewrite !filter_unselected_all; [symmetry; apply delete_take_drop | |].
    + intros e He (id & Hid & Heq). rewrite Hsel in Hid. injection Hid as <-.
      apply Hl2. apply list_elem_of_omap. eauto.
    + intros e He (id & Hid & Heq). rewrite Hsel in Hid. injection Hid as <-.
      apply (Hl1 (Layer.id layer)); [apply list_elem_of_omap; eauto | left].
  - intros Hn. apply Hn, id_is_selection_spec. exists (Layer.id layer). auto.
Qed.

(** Clicking a layer and pressing Delete removes that layer and no other,
    when ids are pairwise distinct; nothing is selected afterwards. *)
Theorem select_then_delete_removes_clicked (state : EditorState) (k : nat)
    (layer : Layer.t) :
  NoDup (ids state) →
  layers state !! k = Some (Full layer) →
  deleteSelectedLayer (handleSelect layer state)
  = mkState (delete k (layers state)) None.
Proof.
  intros Hn Hk. apply state_eq; [|reflexivity].
  rewrite deleteSelectedLayer_layers.
  apply (filter_unselected_at (handleSelect layer state) (layers state) k layer);
    [exact Hn | exact Hk | reflexivity].
Qed.

(** Pressing Delete a second time changes nothing. *)
Theorem deleteSelectedLayer_idempotent (state : EditorState) :
  deleteSelectedLayer (deleteSelectedLayer state) = deleteSelectedLayer state.
Proof.
  apply state_eq; [|reflexivity].
  apply deleteSelectedLayer_none_selected.
  intros e _ (id & Hid & _). discriminate Hid.
Qed.

(** Adding a layer with a fresh id, selecting it and deleting it gives the
    collection back, with nothing selected. *)
Theorem add_select_delete_round_trip (state : EditorState) (L : Layer.t) :
  ¬ present (Layer.id L) state →
  deleteSelectedLayer (selectLayer (Some (Layer.id L)) (addLayer L state))
  = mkState (layers state) None.
Proof.
  intros Hfresh. apply state_eq; [|reflexivity].
  rewrite deleteSelectedLayer_layers.
  set (st := selectLayer (Some (Layer.id L)) (addLayer L state)).
  change (layers st)
    with (Full (Layer.with_zIndex L (Z.of_nat (length (layers state))))
          :: layers state).
  rewrite filter_cons_False.
  - apply filter_unselected_all. intros e He (id & Hid & Heq).
    injection Hid as <-.
    exact (proj1 (not_present_lookup _ _) Hfresh e He Heq).
  - intros Hn. apply Hn, id_is_selection_spec. exists (Layer.id L).
    split; reflexivity.
Qed.

(** In a ranked collection of [N] layers with distinct ids, deleting the
    selected layer, at position [k], and then adding a layer gives the new
    layer the rank [N - 1] and leaves the survivors their ranks.  When the
    deleted layer was the front one the ranks are distinct again; when it
    was any other, the new layer and the old front layer both have rank
    [N - 1]. *)
Theorem delete_then_add_ranks (state : EditorState) (k : nat)
    (layer L : Layer.t) :
  ranked state →
  NoDup (ids state) →
  layers state !! k = Some (Full layer) →
  selectedLayerId state = Some (Layer.id layer) →
  zIndexes (addLayer L (deleteSelectedLayer state))
  = (Z.of_nat (length (layers state)) - 1)
    :: delete k (ranks (length (layers state)))
  ∧ (k = 0%nat → NoDup (zIndexes (addLayer L (deleteSelectedLayer state))))
  ∧ ((0 < k)%nat →
       ∃ rest, zIndexes (addLayer L (deleteSelectedLayer state))
               = (Z.of_nat (length (layers state)) - 1)
                 :: (Z.of_nat (length (layers state)) - 1) :: rest).
Proof.
  intros Hr Hn Hk Hsel.
  pose proof (lookup_lt_Some _ _ _ Hk) as Hlt.
  assert (Hdel : layers (deleteSelectedLayer state) = delete k (layers state)).
  { rewrite deleteSelectedLayer_layers.
    apply (filter_unselected_at state _ k layer); assumption. }
  assert (Hz : zIndexes (addLayer L (deleteSelectedLayer state))
               = (Z.of_nat (length (layers state)) - 1)
                 :: delete k (ranks (length (layers state)))).
  { unfold zIndexes.
    change (layers (addLayer L (deleteSelectedLayer state)))
      with (Full (Layer.with_zIndex L
                    (Z.of_nat (length (layers (deleteSelectedLayer state)))))
            :: layers (deleteSelectedLayer state)).
    rewrite fmap_cons, Hdel, list_fmap_delete, length_delete by eauto.
    fold (zIndexes state). rewrite Hr. cbn [entry_zIndex Layer.zIndex Layer.with_zIndex].
    f_equal. lia. }
  split; [exact Hz|]. rewrite Hz.
  destruct (length (layers state)) as [|n]; [lia|]. rewrite ranks_S.
  replace (Z.of_nat (S n) - 1) with (Z.of_nat n) by lia.
  split.
  - intros ->. simpl. rewrite <- ranks_S. apply NoDup_ranks.
  - intros Hpos. destruct k as [|k']; [lia|]. simpl. eauto.
Qed.

(** With distinct ids at most one entry passes the [isSelected] test: at
    most one item is highlighted, and at most one image can be dragged and
    resized. *)
Theorem at_most_one_selected (state : EditorState) :
  NoDup (ids state) →
  (length (filter (λ e, isSelected state e) (layers state)) ≤ 1)%nat.
Proof.
  unfold ids, isSelected. generalize (selectedLayerId state). intros sel.
  induction (layers state) as [|e l IH]; intros Hn; [simpl; lia|].
  destruct (decide (id_is_selection sel e)) as [He|He].
  - rewrite filter_cons_True by exact He.
    destruct sel as [id|]; [|destruct He].
    apply Is_true_true, id_is_true in He.
    cbn [omap list_omap] in Hn. rewrite He in Hn.
    apply NoDup_cons in Hn as [Hnot _].
    destruct (filter _ l) as [|e' rest] eqn:Hf; [simpl; lia|].
    assert (He' : e' ∈ filter (λ e, id_is_selection (Some id) e) l)
      by (rewrite Hf; left).
    apply list_elem_of_filter in He' as [Hs He'].
    destruct Hnot. apply list_elem_of_omap. exists e'.
    split; [exact He'|]. apply id_is_true, Is_true_true, Hs.
  - rewrite filter_cons_False by exact He. apply IH.
    cbn [omap list_omap] in Hn. destruct (entry_id e); [|exact Hn].
    apply NoDup_cons in Hn as [_ Hn]. exact Hn.
Qed.

(** *** Updates *)

Lemma spread_merge layer p q :
  spread (spread layer p) q = spread layer (merge p q).
Proof.
  destruct p as [i t s n w h px py z c], q as [i' t' s' n' w' h' px' py' z' c'].
  unfold spread, merge; simpl.
  destruct i', t', s', n', w', h', px', py', z', c'; reflexivity.
Qed.

(** Two updates of the same layer are one update with the merged patch: a
    field both patches name ends with the later value.  The first patch
    must leave [id] alone, or the second would not find the layer. *)
Theorem updateLayer_twice (state : EditorState) (id : Z) (p q : Partial.t) :
  Partial.id p = None →
  updateLayer id q (updateLayer id p state) = updateLayer id (merge p q) state.
Proof.
  intros Hp. apply state_eq; [|reflexivity].
  change (update_entry id q <$> (update_entry id p <$> layers state)
          = update_entry id (merge p q) <$> layers state).
  rewrite <- list_fmap_compose. apply list_fmap_ext. intros k e _; simpl.
  destruct e as [layer|z]; simpl; [|reflexivity].
  destruct (Z.eqb_spec (Layer.id layer) id) as [Heq|Hne]; simpl.
  - rewrite Hp; simpl. rewrite (proj2 (Z.eqb_eq _ _) Heq).
    rewrite spread_merge. reflexivity.
  - rewrite (proj2 (Z.eqb_neq _ _) Hne). reflexivity.
Qed.

(** Updates of layers with different ids do not interfere: they give the
    same state in either order, as long as neither patch names [id]. *)
Theorem updateLayer_commute (state : EditorState) (a b : Z) (p q : Partial.t) :
  a ≠ b →
  Partial.id p = None →
  Partial.id q = None →
  updateLayer a p (updateLayer b q state) = updateLayer b q (updateLayer a p state).
Proof.
  intros Hab Hp Hq. apply state_eq; [|reflexivity].
  change (update_entry a p <$> (update_entry b q <$> layers state)
          = update_entry b q <$> (update_entry a p <$> layers state)).
  rewrite <- !list_fmap_compose. apply list_fmap_ext. intros k e _; simpl.
  destruct e as [layer|z]; simpl; [|reflexivity].
  destruct (Z.eqb_spec (Layer.id layer) a) as [Ha|Ha],
           (Z.eqb_spec (Layer.id layer) b) as [Hb|Hb]; simpl;
    rewrite ?Hp, ?Hq; simpl.
  - congruence.
  - rewrite (proj2 (Z.eqb_neq _ _) Hb), (proj2 (Z.eqb_eq _ _) Ha). reflexivity.
  - rewrite (proj2 (Z.eqb_neq _ _) Ha), (proj2 (Z.eqb_eq _ _) Hb). reflexivity.
  - rewrite (proj2 (Z.eqb_neq _ _) Ha), (proj2 (Z.eqb_neq _ _) Hb). reflexivity.
Qed.

(** ** Sessions of events *)











(** ** The relay *)

Lemma bind_ret_l {A B} (a : A) (k : A → Relay.Async B) :
  Relay.bind (Relay.ret a) k = k a.
Proof. unfold Relay.bind, Relay.ret. simpl. destruct (k a). reflexivity. Qed.

Lemma bind_throw_l {A B} (k : A → Relay.Async B) :
  Relay.bind Relay.throw k = Relay.throw.
Proof. reflexivity. Qed.

Lemma POST_parsed env provider request value :
  Relay.body request = Some value → value ≠ Relay.JNull →
  Relay.POST env provider request
  = (if negb (Relay.truthy (Relay.FAL_AI_API_KEY env)) then
       Relay.ret (Relay.NextResponse_json Relay.key_not_found 500)
     else
       Relay.bind
         (Relay.fetch provider
            (Relay.mkCall "https://fal.run/fal-ai/fast-lightning-sdxl" "POST"
               [("Content-Type", "application/json");
                ("Authorization",
                 "Key " +:+ default EmptyString (Relay.FAL_AI_API_KEY env))]
               (Relay.object [("prompt", Relay.get "prompt" value);
                              ("image_size", Relay.get "size" value)])))
         (λ response,
            Relay.bind (Relay.response_json response)
              (λ data, Relay.ret (Relay.NextResponse_json data 200)))).
Proof.
  intros Hbody Hnull. unfold Relay.POST, Relay.request_json.
  rewrite Hbody. change ([], Some value) with (Relay.ret value).
  rewrite bind_ret_l.
  destruct value; try congruence;
    unfold Relay.destructure; rewrite bind_ret_l; reflexivity.
Qed.

(** A body that is not JSON, or is [null]: the handler throws before it
    reads the key, and calls nobody. *)
Lemma POST_unreadable env provider request :
  Relay.body request = None ∨ Relay.body request = Some Relay.JNull →
  Relay.POST env provider request = ([], None).
Proof.
  unfold Relay.POST, Relay.request_json.
  intros [-> | ->]; reflexivity.
Qed.

(** C8, as the code has it.  For a request whose body is JSON other than
    [null]: when the key is not set in the environment, or is set to the
    empty string, the handler responds with the body
    [{ error: "API key not found" }] and status 500 and makes no outbound
    call; when the key is a non-empty string it makes exactly one outbound
    call, a POST to the provider authorised with the key, whose body carries
    the request's [prompt] as [prompt] and its [size] as [image_size]. *)
Theorem POST_checks_key (env : Relay.Env) (provider : Relay.Provider)
    (request : Relay.Request) (value : Relay.Json) :
  Relay.body request = Some value →
  value ≠ Relay.JNull →
  (Relay.FAL_AI_API_KEY env = None ∨ Relay.FAL_AI_API_KEY env = Some EmptyString →
     Relay.calls (Relay.POST env provider request) = []
     ∧ Relay.result (Relay.POST env provider request)
       = Some (Relay.mkResponse 500
                 (Relay.JObject [("error", Relay.JString "API key not found")])))
  ∧ (∀ key, Relay.FAL_AI_API_KEY env = Some key → key ≠ EmptyString →
       Relay.calls (Relay.POST env provider request)
       = [Relay.mkCall "https://fal.run/fal-ai/fast-lightning-sdxl" "POST"
            [("Content-Type", "application/json");
             ("Authorization", "Key " +:+ key)]
            (Relay.object [("prompt", Relay.get "prompt" value);
                           ("image_size", Relay.get "size" value)])]).
Proof.
  intros Hbody Hnull. rewrite (POST_parsed _ _ _ _ Hbody Hnull). split.
  - intros [-> | ->]; split; reflexivity.
  - intros key -> Hkey. destruct key as [|c key]; [congruence|].
    cbn [Relay.truthy negb default].
    unfold Relay.calls, Relay.bind, Relay.fetch. cbn [fst snd].
    destruct (provider _) as [[[data|]]|]; reflexivity.
Qed.

(** With a usable key and a readable body, the relay hands on what the
    provider answered: when the answer parses as JSON it is the body of the
    response, with status 200 whatever the provider's status was; when
    [fetch] or [response.json()] rejects, the handler ends without a
    response, after its one call. *)
Theorem POST_passes_through (env : Relay.Env) (provider : Relay.Provider)
    (request : Relay.Request) (value : Relay.Json) (key : string) :
  Relay.body request = Some value →
  value ≠ Relay.JNull →
  Relay.FAL_AI_API_KEY env = Some key →
  key ≠ EmptyString →
  ∃ call,
    Relay.calls (Relay.POST env provider request) = [call]
    ∧ Relay.result (Relay.POST env provider request)
      = (λ data, Relay.mkResponse 200 data) <$> (provider call ≫= Relay.json).
Proof.
  intros Hbody Hnull Hkey Hne. rewrite (POST_parsed _ _ _ _ Hbody Hnull), Hkey.
  destruct key as [|c key]; [congruence|].
  cbn [Relay.truthy negb].
  unfold Relay.calls, Relay.result, Relay.bind, Relay.fetch. cbn [fst snd].
  set (call := Relay.mkCall _ _ _ _). exists call.
  destruct (provider call) as [[[data|]]|]; split; reflexivity.
Qed.

(** ** handleSubmit and the relay together *)

(** The relay never calls the provider twice, and it calls at all only with
    a key that is not empty: for every environment, provider and request it
    makes no call, or one call, to the provider's address. *)
Theorem POST_at_most_one_call (env : Relay.Env) (provider : Relay.Provider)
    (request : Relay.Request) :
  Relay.calls (Relay.POST env provider request) = []
  ∨ ∃ call,
      Relay.calls (Relay.POST env provider request) = [call]
      ∧ Relay.url call = "https://fal.run/fal-ai/fast-lightning-sdxl"
      ∧ Relay.truthy (Relay.FAL_AI_API_KEY env) = true.
Proof.
  destruct (Relay.body request) as [value|] eqn:Hbody.
  - assert (Hcase : value = Relay.JNull ∨ value ≠ Relay.JNull)
      by (destruct value; (left; reflexivity) || (right; discriminate)).
    destruct Hcase as [->|Hnull].
    + left. rewrite POST_unreadable by auto. reflexivity.
    + rewrite (POST_parsed _ _ _ _ Hbody Hnull).
      destruct (Relay.truthy _) eqn:Hkey; [right|left; reflexivity].
      cbn [negb]. unfold Relay.calls, Relay.bind, Relay.fetch. cbn [fst snd].
      set (call := Relay.mkCall _ _ _ _). exists call.
      destruct (provider call) as [[[data|]]|]; repeat split.
  - left. rewrite POST_unreadable by auto. reflexivity.
Qed.

Lemma relay_answer_unfold (env : Relay.Env) (provider : Relay.Provider)
    (prompt size : string) :
  relay_answer env provider prompt size
  = if Relay.truthy (Relay.FAL_AI_API_KEY env) then
      provider
        (Relay.mkCall "https://fal.run/fal-ai/fast-lightning-sdxl" "POST"
           [("Content-Type", "application/json");
            ("Authorization",
             "Key " +:+ default EmptyString (Relay.FAL_AI_API_KEY env))]
           [("prompt", Relay.JString prompt);
            ("image_size", Relay.JString size)])
      ≫= Relay.json
    else Some (Relay.JObject [("error", Relay.JString "API key not found")]).
Proof.
  unfold relay_answer.
  rewrite (POST_parsed env provider (submit_request prompt size)
             (Relay.JObject [("prompt", Relay.JString prompt);
                             ("size", Relay.JString size)]))
    by (reflexivity || discriminate).
  destruct (Relay.truthy _); [|reflexivity].
  cbn [negb]. unfold Relay.result, Relay.bind, Relay.fetch. cbn [fst snd].
  change (Relay.object _)
    with [("prompt", Relay.JString prompt); ("image_size", Relay.JString size)].
  destruct (provider _) as [[[data|]]|]; reflexivity.
Qed.

(** What [handleSubmit] gets back from the route: its request is always one
    the handler can read, so the answer is the key error when the key is
    missing or empty, and otherwise what the provider answered to the one
    call, if that is JSON. *)
Theorem relay_answer_cases (env : Relay.Env) (provider : Relay.Provider)
    (prompt size : string) :
  relay_answer env provider prompt size
  = if Relay.truthy (Relay.FAL_AI_API_KEY env) then
      provider
        (Relay.mkCall "https://fal.run/fal-ai/fast-lightning-sdxl" "POST"
           [("Content-Type", "application/json");
            ("Authorization",
             "Key " +:+ default EmptyString (Relay.FAL_AI_API_KEY env))]
           [("prompt", Relay.JString prompt);
            ("image_size", Relay.JString size)])
      ≫= Relay.json
    else Some (Relay.JObject [("error", Relay.JString "API key not found")]).
Proof. apply relay_answer_unfold. Qed.

Lemma images_0_url_missing data :
  Relay.get "images" data = None → images_0_url data = None.
Proof.
  intros H. unfold images_0_url, member. destruct data; try reflexivity;
    rewrite H; reflexivity.
Qed.

(** When no answer arrives, or the answer has no [images] property (an
    error object, say), [handleSubmit] ends in its [catch] branch and the
    store is as it was. *)
Theorem handleSubmit_failure_changes_nothing (captured : nat) (now : Z)
    (data : option Relay.Json) (state : EditorState) :
  (data = None ∨ ∃ d, data = Some d ∧ Relay.get "images" d = None) →
  handleSubmit_settle captured now data state = Logged state.
Proof.
  intros [-> | (d & -> & H)]; [reflexivity|].
  unfold handleSubmit_settle. rewrite (images_0_url_missing d H). reflexivity.
Qed.

(** Without a usable key a submission adds nothing: the relay answers with
    its error object, [data.images] is [undefined], the [TypeError] is
    caught and the store is as it was, whatever the prompt. *)
Theorem submit_without_key_adds_nothing (env : Relay.Env)
    (provider : Relay.Provider) (prompt size : string) (captured : nat)
    (now : Z) (state : EditorState) :
  Relay.FAL_AI_API_KEY env = None ∨ Relay.FAL_AI_API_KEY env = Some EmptyString →
  handleSubmit_settle captured now (relay_answer env provider prompt size) state
  = Logged state.
Proof.
  intros Hkey. rewrite relay_answer_unfold.
  destruct Hkey as [-> | ->]; reflexivity.
Qed.

Lemma handleSubmit_settle_image captured now data first rest url state :
  Relay.get "images" data = Some (Relay.JArray (first :: rest)) →
  Relay.get "url" first = Some (Relay.JString url) →
  handleSubmit_settle captured now (Some data) state
  = Added (addLayer (newLayer captured now url) state).
Proof.
  intros Himages Hurl. unfold handleSubmit_settle, images_0_url.
  assert (Hdata : member (Relay.get "images") (Some data)
                  = Some (Some (Relay.JArray (first :: rest)))).
  { unfold member. destruct data; try discriminate. rewrite Himages. reflexivity. }
  rewrite Hdata. cbn [mbind option_bind].
  change (member item0 (Some (Relay.JArray (first :: rest))))
    with (Some (Some first)). cbn [mbind option_bind].
  assert (Hfirst : member (Relay.get "url") (Some first)
                   = Some (Some (Relay.JString url))).
  { unfold member. destruct first; try discriminate. rewrite Hurl. reflexivity. }
  rewrite Hfirst. reflexivity.
Qed.

(** With a key, when the provider answers the relay's call with JSON whose
    [images[0].url] is a string, the submission puts one new layer in front
    of the collection: an image of 200 by 200 at the origin, with that url,
    the id [Date.now()], and the name numbered by the size the collection
    had when the form was submitted.  Its [zIndex] is the size of the
    collection when the answer arrives, not the stale size [handleSubmit]
    wrote into it; the layers already there and the selection are
    unchanged. *)
Theorem submit_adds_generated_image (env : Relay.Env)
    (provider : Relay.Provider) (prompt size key : string) (captured : nat)
    (now : Z) (state : EditorState) (data first : Relay.Json)
    (rest : list Relay.Json) (url : string) :
  Relay.FAL_AI_API_KEY env = Some key →
  key ≠ EmptyString →
  provider
    (Relay.mkCall "https://fal.run/fal-ai/fast-lightning-sdxl" "POST"
       [("Content-Type", "application/json"); ("Authorization", "Key " +:+ key)]
       [("prompt", Relay.JString prompt); ("image_size", Relay.JString size)])
  = Some (Relay.mkFetchResponse (Some data)) →
  Relay.get "images" data = Some (Relay.JArray (first :: rest)) →
  Relay.get "url" first = Some (Relay.JString url) →
  handleSubmit_settle captured now (relay_answer env provider prompt size) state
  = Added
      (mkState
         (Full (Layer.mk now image url
                  ("Generated Image " +:+ pretty (captured + 1)%nat)
                  200 200 0 0 (Z.of_nat (length (layers state))) None)
          :: layers state)
         (selectedLayerId state)).
Proof.
  intros Hkey Hne Hprov Himages Hurl. rewrite relay_answer_unfold, Hkey.
  assert (Ht : Relay.truthy (Some key) = true)
    by (destruct key; [congruence | reflexivity]).
  rewrite Ht. change (default EmptyString (Some key)) with key.
  rewrite Hprov. cbn [mbind option_bind Relay.json].
  rewrite (handleSubmit_settle_image _ _ _ _ _ _ _ Himages Hurl). reflexivity.
Qed.

(** ** The properties on concrete inputs *)

Example scenario :
  run_if fresh_id initial
    [AddLayer (sample 1); AddLayer (sample 2); ReorderLayers 1 0;
     SelectLayer (Some 2); DeleteSelectedLayer]
  = Some (mkState [Full (Layer.with_zIndex (sample 1) 1)] None).
Proof. reflexivity. Qed.

Example two_layers_ranks :
  entry_id <$> layers two_layers = [Some 2; Some 1] ∧ zIndexes two_layers = [1; 0].
Proof. split; reflexivity. Qed.

Example update_x_only :
  updateLayer 1 (patch_x 10) two_layers
  = mkState
      [Full (Layer.with_zIndex (sample 2) 1);
       Full (Layer.mk 1 image "https://fal.media/files/a.png" "Generated Image"
               200 200 10 0 0 None)]
      None.
Proof. reflexivity. Qed.

(** A start index out of range removes nothing, and a bare object joins the
    collection. *)
Example reorder_out_of_range :
  layers (reorderLayers 5 0 two_layers)
  = [Bare 2; Full (Layer.with_zIndex (sample 2) 1);
     Full (Layer.with_zIndex (sample 1) 0)].
Proof. reflexivity. Qed.

Example reorder_three :
  entry_id <$> layers (reorderLayers 2 0 three_layers) = [Some 1; Some 3; Some 2]
  ∧ zIndexes (reorderLayers 2 0 three_layers) = [2; 1; 0].
Proof. split; reflexivity. Qed.

Lemma NoDup_twice (z : Z) : ¬ NoDup [z; z].
Proof. intros H. apply NoDup_cons in H as [H _]. apply H. left. Qed.

(** C1 fails as stated, in two ways.  After two [addLayer] calls the layers
    have [zIndex] 1 and 0.  Deleting the layer of rank 0 leaves one layer,
    of rank 1, and the next [addLayer] gives the new layer the size of the
    collection, 1, as well.  And a patch may name [zIndex]:
    [updateLayer(1, { zIndex: 1 })] gives layer 1 the rank of layer 2. *)
Lemma zIndex_distinct_counterexample :
  (run_if fresh_id initial calls_delete_then_add = Some (run calls_delete_then_add)
   ∧ entry_id <$> layers (run calls_delete_then_add) = [Some 3; Some 2]
   ∧ zIndexes (run calls_delete_then_add) = [1; 1]
   ∧ ¬ NoDup (zIndexes (run calls_delete_then_add)))
  ∧ (run_if fresh_id initial calls_patch_zIndex = Some (run calls_patch_zIndex)
     ∧ entry_id <$> layers (run calls_patch_zIndex) = [Some 2; Some 1]
     ∧ zIndexes (run calls_patch_zIndex) = [1; 1]
     ∧ ¬ NoDup (zIndexes (run calls_patch_zIndex))).
Proof.
  split; (split; [reflexivity|]); (split; [reflexivity|]);
    (split; [reflexivity|]); apply NoDup_twice.
Qed.

(** The ranking after a run without [deleteSelectedLayer], one of whose
    [reorderLayers] calls has its start index out of range. *)
Lemma zIndex_distinct_while_ranked_witness :
  run_if keeps_ranking initial calls_without_delete = Some (run calls_without_delete)
  ∧ zIndexes (run calls_without_delete)
    = ranks (length (layers (run calls_without_delete)))
  ∧ NoDup (zIndexes (run calls_without_delete)).
Proof.
  assert (H : run_if keeps_ranking initial calls_without_delete
              = Some (run calls_without_delete)) by reflexivity.
  split; [exact H|].
  exact (zIndex_distinct_while_ranked calls_without_delete _ H).
Defined.

(** C6 fails as stated, in two ways.  [selectLayer] stores the id it is
    given without looking at the collection, so [selectLayer(42)] on the
    empty collection selects an id no layer has.  And a patch may name
    [id]: after [updateLayer(1, { id: 2 })] the selection 1 names no
    layer. *)
Lemma selection_valid_counterexample :
  (run_if fresh_id initial calls_select_unknown = Some (run calls_select_unknown)
   ∧ selectedLayerId (run calls_select_unknown) = Some 42
   ∧ layers (run calls_select_unknown) = []
   ∧ ¬ selection_valid (run calls_select_unknown))
  ∧ (run_if fresh_id initial calls_patch_id = Some (run calls_patch_id)
     ∧ selectedLayerId (run calls_patch_id) = Some 1
     ∧ entry_id <$> layers (run calls_patch_id) = [Some 2]
     ∧ ¬ selection_valid (run calls_patch_id)).
Proof.
  split; (split; [reflexivity|]); (split; [reflexivity|]);
    (split; [reflexivity|]); unfold selection_valid, present.
  - change (Some 42 ∉ @nil (option Z)). apply not_elem_of_nil.
  - change (Some 1 ∉ [Some 2]). rewrite list_elem_of_singleton. discriminate.
Qed.

(** The selection after a run whose [selectLayer] calls name layers of the
    collection. *)
Lemma selection_valid_when_callers_check_witness :
  run_if keeps_selection initial calls_with_checked_select
  = Some (run calls_with_checked_select)
  ∧ selection_valid (run calls_with_checked_select).
Proof.
  assert (H : run_if keeps_selection initial calls_with_checked_select
              = Some (run calls_with_checked_select)) by reflexivity.
  split; [exact H|].
  exact (selection_valid_when_callers_check calls_with_checked_select _ H).
Defined.

(** Moving the last of three layers to the front. *)
Lemma reorderLayers_inverse_rank_witness :
  (2 < length (layers three_layers))%nat
  ∧ (0 < length (layers three_layers))%nat
  ∧ length (layers (reorderLayers 2 0 three_layers)) = length (layers three_layers)
  ∧ forget_zIndex <$> layers (reorderLayers 2 0 three_layers) !! 0%nat
    = forget_zIndex <$> layers three_layers !! 2%nat
  ∧ delete 0%nat (forget_zIndex <$> layers (reorderLayers 2 0 three_layers))
    = delete 2%nat (forget_zIndex <$> layers three_layers)
  ∧ ∀ (k : nat) e,
      layers (reorderLayers 2 0 three_layers) !! k = Some e →
      entry_zIndex e = Z.of_nat (length (layers three_layers)) - 1 - Z.of_nat k.
Proof.
  assert (H2 : (2 < length (layers three_layers))%nat) by (simpl; lia).
  assert (H0 : (0 < length (layers three_layers))%nat) by (simpl; lia).
  split; [exact H2|]. split; [exact H0|].
  exact (reorderLayers_inverse_rank three_layers 2 0 H2 H0).
Defined.

(** Moving the first of three layers to the end. *)
Lemma reorderLayers_frame_witness :
  (0 < length (layers three_layers))%nat
  ∧ forget_zIndex <$> layers (reorderLayers 0 2 three_layers)
    ≡ₚ forget_zIndex <$> layers three_layers
  ∧ entry_id <$> layers (reorderLayers 0 2 three_layers)
    ≡ₚ entry_id <$> layers three_layers
  ∧ selectedLayerId (reorderLayers 0 2 three_layers) = selectedLayerId three_layers.
Proof.
  assert (H0 : (0 < length (layers three_layers))%nat) by (simpl; lia).
  split; [exact H0|].
  exact (reorderLayers_frame three_layers 0 2 H0).
Defined.

(** No layer of [two_layers] has the id 7. *)
Lemma updateLayer_missing_noop_witness :
  ¬ present 7 two_layers
  ∧ updateLayer 7 (patch_x 10) two_layers = two_layers.
Proof.
  assert (H : ¬ present 7 two_layers).
  { unfold present. change (Some 7 ∉ [Some 2; Some 1]).
    rewrite !not_elem_of_cons. repeat split; try discriminate.
    apply not_elem_of_nil. }
  split; [exact H|].
  exact (updateLayer_missing_noop two_layers 7 (patch_x 10) H).
Defined.

(** C8 fails as stated, in two ways.  A key that is set to the empty string
    is in the environment, yet [!apiKey] holds and no call goes out.  And
    the handler reads the body before it looks at the key: when the body is
    not JSON, [request.json()] rejects and the handler ends without the
    [{ error: "API key not found" }] response, key or no key. *)
Lemma POST_counterexample :
  (Relay.calls (Relay.POST (Relay.mkEnv (Some EmptyString)) Relay.provider_ok
                  Relay.generate_request) = []
   ∧ Relay.result (Relay.POST (Relay.mkEnv (Some EmptyString)) Relay.provider_ok
                     Relay.generate_request)
     = Some (Relay.mkResponse 500 Relay.key_not_found))
  ∧ (Relay.calls (Relay.POST (Relay.mkEnv None) Relay.provider_ok
                    (Relay.mkRequest None)) = []
     ∧ Relay.result (Relay.POST (Relay.mkEnv None) Relay.provider_ok
                       (Relay.mkRequest None)) = None).
Proof. repeat split. Qed.

(** A request for a square image with the key [k1]. *)
Lemma POST_checks_key_witness :
  Relay.body Relay.generate_request
  = Some (Relay.JObject [("prompt", Relay.JString "a cat");
                         ("size", Relay.JString "square_hd")])
  ∧ Relay.JObject [("prompt", Relay.JString "a cat");
                   ("size", Relay.JString "square_hd")] ≠ Relay.JNull
  ∧ Relay.calls (Relay.POST (Relay.mkEnv (Some "k1")) Relay.provider_ok
                   Relay.generate_request)
    = [Relay.mkCall "https://fal.run/fal-ai/fast-lightning-sdxl" "POST"
         [("Content-Type", "application/json"); ("Authorization", "Key k1")]
         [("prompt", Relay.JString "a cat");
          ("image_size", Relay.JString "square_hd")]].
Proof.
  assert (Hbody : Relay.body Relay.generate_request
                  = Some (Relay.JObject [("prompt", Relay.JString "a cat");
                                         ("size", Relay.JString "square_hd")]))
    by reflexivity.
  assert (Hnull : Relay.JObject [("prompt", Relay.JString "a cat");
                                 ("size", Relay.JString "square_hd")]
                  ≠ Relay.JNull) by discriminate.
  split; [exact Hbody|]. split; [exact Hnull|].
  refine (proj2 (POST_checks_key (Relay.mkEnv (Some "k1")) Relay.provider_ok
                   Relay.generate_request _ Hbody Hnull) "k1" eq_refl _).
  discriminate.
Defined.

(** The ids after a run with fresh ids, a start index out of range and a
    patch that names [zIndex]. *)
Lemma ids_distinct_witness :
  run_if keeps_ids initial calls_with_fresh_ids = Some (run calls_with_fresh_ids)
  ∧ NoDup (ids (run calls_with_fresh_ids)).
Proof.
  assert (H : run_if keeps_ids initial calls_with_fresh_ids
              = Some (run calls_with_fresh_ids)) by reflexivity.
  split; [exact H|].
  exact (ids_distinct calls_with_fresh_ids _ H).
Defined.


(** Deleting the layer of rank 0 of [two_layers]. *)
Lemma deleteSelectedLayer_keeps_distinct_witness :
  NoDup (zIndexes (selectLayer (Some 1) two_layers))
  ∧ NoDup (zIndexes (deleteSelectedLayer (selectLayer (Some 1) two_layers))).
Proof.
  assert (H : NoDup (zIndexes (selectLayer (Some 1) two_layers)))
    by exact (NoDup_ranks 2).
  split; [exact H|].
  exact (deleteSelectedLayer_keeps_distinct _ H).
Defined.

(** The provider's answer comes back with status 200. *)
Lemma POST_passes_through_witness :
  ∃ call,
    Relay.calls (Relay.POST (Relay.mkEnv (Some "k1")) Relay.provider_ok
                   Relay.generate_request) = [call]
    ∧ Relay.result (Relay.POST (Relay.mkEnv (Some "k1")) Relay.provider_ok
                      Relay.generate_request)
      = (λ data, Relay.mkResponse 200 data)
          <$> (Relay.provider_ok call ≫= Relay.json).
Proof.
  refine (POST_passes_through (Relay.mkEnv (Some "k1")) Relay.provider_ok
            Relay.generate_request _ "k1" eq_refl _ eq_refl _); discriminate.
Defined.

(** ** The further properties on concrete inputs *)

Lemma ranked_three_layers : ranked three_layers.
Proof. reflexivity. Qed.

Lemma NoDup_ids_two_layers : NoDup (ids two_layers).
Proof.
  change (NoDup [2; 1]). apply NoDup_cons. split.
  - rewrite list_elem_of_singleton. discriminate.
  - apply NoDup_singleton.
Qed.

(** Dragging the front layer of three to the end and back. *)
Lemma drag_back_restores_witness :
  ranked three_layers
  ∧ (0 < length (layers three_layers))%nat
  ∧ (2 < length (layers three_layers))%nat
  ∧ reorderLayers 0 0 three_layers = three_layers
  ∧ reorderLayers 2 0 (reorderLayers 0 2 three_layers) = three_layers.
Proof.
  assert (H0 : (0 < length (layers three_layers))%nat) by (simpl; lia).
  assert (H2 : (2 < length (layers three_layers))%nat) by (simpl; lia).
  split; [exact ranked_three_layers|]. split; [exact H0|]. split; [exact H2|].
  exact (drag_back_restores three_layers 0 2 ranked_three_layers H0 H2).
Defined.

(** Clicking the second of two layers and pressing Delete. *)
Lemma select_then_delete_removes_clicked_witness :
  NoDup (ids two_layers)
  ∧ layers two_layers !! 1%nat = Some (Full (Layer.with_zIndex (sample 1) 0))
  ∧ deleteSelectedLayer (handleSelect (Layer.with_zIndex (sample 1) 0) two_layers)
    = mkState (delete 1%nat (layers two_layers)) None.
Proof.
  split; [exact NoDup_ids_two_layers|]. split; [reflexivity|].
  exact (select_then_delete_removes_clicked two_layers 1
           (Layer.with_zIndex (sample 1) 0) NoDup_ids_two_layers eq_refl).
Defined.

Lemma not_present_3_two_layers : ¬ present 3 two_layers.
Proof.
  unfold present. change (Some 3 ∉ [Some 2; Some 1]).
  rewrite !not_elem_of_cons. repeat split; try discriminate.
  apply not_elem_of_nil.
Qed.

(** Adding a third layer, selecting it and deleting it. *)
Lemma add_select_delete_round_trip_witness :
  ¬ present (Layer.id (sample 3)) two_layers
  ∧ deleteSelectedLayer
      (selectLayer (Some (Layer.id (sample 3))) (addLayer (sample 3) two_layers))
    = mkState (layers two_layers) None.
Proof.
  split; [exact not_present_3_two_layers|].
  exact (add_select_delete_round_trip two_layers (sample 3)
           not_present_3_two_layers).
Defined.

(** Deleting the back layer of two, then adding one: two layers of rank 1. *)
Lemma delete_then_add_ranks_witness :
  ranked two_layers_back_selected
  ∧ NoDup (ids two_layers_back_selected)
  ∧ layers two_layers_back_selected !! 1%nat
    = Some (Full (Layer.with_zIndex (sample 1) 0))
  ∧ selectedLayerId two_layers_back_selected = Some 1
  ∧ zIndexes (addLayer (sample 3) (deleteSelectedLayer two_layers_back_selected))
    = [1; 1].
Proof.
  assert (Hr : ranked two_layers_back_selected) by reflexivity.
  split; [exact Hr|]. split; [exact NoDup_ids_two_layers|].
  split; [reflexivity|]. split; [reflexivity|].
  exact (proj1 (delete_then_add_ranks two_layers_back_selected 1
                  (Layer.with_zIndex (sample 1) 0) (sample 3)
                  Hr NoDup_ids_two_layers eq_refl eq_refl)).
Defined.

(** One of two layers is selected. *)
Lemma at_most_one_selected_witness :
  NoDup (ids (two_layers_back_selected))
  ∧ (length (filter (λ e, isSelected (two_layers_back_selected) e)
               (layers (two_layers_back_selected))) ≤ 1)%nat.
Proof.
  split; [exact NoDup_ids_two_layers|].
  exact (at_most_one_selected (two_layers_back_selected)
           NoDup_ids_two_layers).
Defined.

(** A drag to (30, 40) and then a resize that also moves to (5, 5). *)
Lemma updateLayer_twice_witness :
  Partial.id (patch_position 30 40) = None
  ∧ updateLayer 1 (patch_geometry 120 80 5 5)
      (updateLayer 1 (patch_position 30 40) two_layers)
    = updateLayer 1 (patch_geometry 120 80 5 5) two_layers.
Proof.
  split; [reflexivity|].
  exact (updateLayer_twice two_layers 1 (patch_position 30 40)
           (patch_geometry 120 80 5 5) eq_refl).
Defined.

(** Moving layer 1 and resizing layer 2, in either order. *)
Lemma updateLayer_commute_witness :
  updateLayer 1 (patch_position 30 40)
    (updateLayer 2 (patch_geometry 120 80 5 5) two_layers)
  = updateLayer 2 (patch_geometry 120 80 5 5)
      (updateLayer 1 (patch_position 30 40) two_layers).
Proof.
  refine (updateLayer_commute two_layers 1 2 (patch_position 30 40)
            (patch_geometry 120 80 5 5) _ eq_refl eq_refl).
  discriminate.
Defined.



(** The relay's error object has no [images]. *)
Lemma handleSubmit_failure_changes_nothing_witness :
  handleSubmit_settle 2 5 (Some Relay.key_not_found) two_layers
  = Logged two_layers.
Proof.
  refine (handleSubmit_failure_changes_nothing 2 5 (Some Relay.key_not_found)
            two_layers _).
  right. exists Relay.key_not_found. split; reflexivity.
Defined.

(** A submission to a relay without a key. *)
Lemma submit_without_key_adds_nothing_witness :
  handleSubmit_settle 2 5
    (relay_answer (Relay.mkEnv None) (provider_image "c.png") "a cat" "square_hd")
    two_layers
  = Logged two_layers.
Proof.
  refine (submit_without_key_adds_nothing (Relay.mkEnv None)
            (provider_image "c.png") "a cat" "square_hd" 2 5 two_layers _).
  left. reflexivity.
Defined.

(** A submission made when the collection was empty, answered when it has
    two layers. *)
Lemma submit_adds_generated_image_witness :
  handleSubmit_settle 0 5
    (relay_answer (Relay.mkEnv (Some "k1")) (provider_image "c.png")
       "a cat" "square_hd")
    two_layers
  = Added
      (mkState
         (Full (Layer.mk 5 image "c.png" "Generated Image 1" 200 200 0 0 2 None)
          :: layers two_layers)
         None).
Proof.
  refine (submit_adds_generated_image (Relay.mkEnv (Some "k1"))
            (provider_image "c.png") "a cat" "square_hd" "k1" 0 5 two_layers
            (answer "c.png")
            (Relay.JObject [("url", Relay.JString "c.png")]) [] "c.png"
            eq_refl _ eq_refl eq_refl eq_refl).
  discriminate.
Defined.
